(** * The [mobile] module of the firmware: BL600 modem control daemon

    A shallow embedding of [src/modules/mobile/main.cpp]: the serial device
    acquisition ([open_serial]), the daemon task and its two flags, the
    fail-fast AT command batch ([exec_all_AT]), the firmware version gate
    ([version_firmware_parse], [version_firmware_compare_le],
    [version_firmware_check]) and the command dispatch of [main].

    Conventions.
    - A C string is a [string]: the characters before the terminating NUL.
    - [uint8_t], [unsigned], [uint32_t] and [unsigned long] values are [Z]
      with the wrap-around written out ([unsigned long] has 32 bits on the
      target, a 32-bit ARM running NuttX).
    - Code that touches globals, [errno], the device or the output streams
      runs in the state monad [M] over [State].
    - The collaborators declared in [at.hpp], [io_tty.hpp], [dispatch.hpp],
      [systemlib.h] are the fields of the class [Platform].
    - The [dbg] trace macro is not modelled: it only writes diagnostics;
      [dbg_perror], which runs while [errno] matters, is a field of
      [Platform]. *)

From Stdlib Require Import ZArith String Ascii List Bool Lia DecimalString.
From Stdlib Require DecimalFacts DecimalPos.
Import ListNotations.

Local Open Scope string_scope.
Local Open Scope Z_scope.

(** ** Characters and machine integers *)

Definition TAB : ascii := Ascii.ascii_of_nat 9.
Definition LF : ascii := Ascii.ascii_of_nat 10.
Definition CR : ascii := Ascii.ascii_of_nat 13.

Definition code (c : ascii) : Z := Z.of_nat (nat_of_ascii c).

Definition UINT_BITS : Z := 32.
Definition ULONG_MAX : Z := 2 ^ 32 - 1.

(** Conversion to [unsigned] / [uint32_t] / [unsigned long]. *)
Definition u32 (x : Z) : Z := x mod 2 ^ UINT_BITS.

Definition is_u8 (x : Z) : Prop := 0 <= x < 2 ^ 8.
Definition is_u32 (x : Z) : Prop := 0 <= x < 2 ^ UINT_BITS.

(** [printf("%u")] / [printf("%i")] of a non-negative value. *)
Definition dec (x : Z) : string := NilZero.string_of_uint (N.to_uint (Z.to_N x)).

(** A C array updated at an index ([v[i] = x]); the callers stay in range. *)
Fixpoint store (v : list Z) (i : nat) (x : Z) : list Z :=
  match v, i with
  | [], _ => []
  | _ :: v', O => x :: v'
  | y :: v', S i' => y :: store v' i' x
  end.

Definition at_index (v : list Z) (i : nat) : Z := nth i v 0.

(** ** The C library

    The functions of [<cstring>] and [<cstdlib>] that the module calls, on
    strings without their NUL. *)

Module CLib.

(** [strchr(set, c) != NULL] for a non-NUL [c]. *)
Fixpoint mem_char (c : ascii) (set : string) : bool :=
  match set with
  | EmptyString => false
  | String d set' => if Ascii.eqb c d then true else mem_char c set'
  end.

(** [s + strspn(s, sep)]. *)
Fixpoint skip_sep (sep s : string) : string :=
  match s with
  | EmptyString => EmptyString
  | String c s' => if mem_char c sep then skip_sep sep s' else s
  end.

(** The first [strcspn(s, sep)] characters of [s], and what follows them. *)
Fixpoint break_sep (sep s : string) : string * string :=
  match s with
  | EmptyString => (EmptyString, EmptyString)
  | String c s' =>
      if mem_char c sep then (EmptyString, s)
      else let (tok, rest) := break_sep sep s' in (String c tok, rest)
  end.

(** Modelled from the spec: [strtok_r] is the C library's, absent from src/;
    the tokenizer on delimiters that the spec names is POSIX's. The call
    [strtok_r(str, sep, &save)] is [strtok_r str sep]; a call with a null
    first argument is [strtok_r save sep]. The result is the token and the
    new value of [save], or [None] for a null pointer. The token's
    delimiter is overwritten with NUL, so [save] starts after it. *)
Definition strtok_r (s sep : string) : option (string * string) :=
  match skip_sep sep s with
  | EmptyString => None
  | s1 =>
      match break_sep sep s1 with
      | (tok, EmptyString) => Some (tok, EmptyString)
      | (tok, String _ save) => Some (tok, save)
      end
  end.

(** [isspace] in the C locale. *)
Definition isspace (c : ascii) : bool :=
  let n := code c in (n =? 32) || ((9 <=? n) && (n <=? 13)).

(** The value of a digit or letter, as [strtoul] reads it. *)
Definition digit_value (c : ascii) : option Z :=
  let n := code c in
  if (48 <=? n) && (n <=? 57) then Some (n - 48)
  else if (97 <=? n) && (n <=? 122) then Some (n - 97 + 10)
  else if (65 <=? n) && (n <=? 90) then Some (n - 65 + 10)
  else None.

Definition digit_in (base : Z) (c : ascii) : option Z :=
  match digit_value c with
  | Some d => if d <? base then Some d else None
  | None => None
  end.

(** The longest run of digits of [base] at the head of [s]: the exact value
    read after [acc], and the number of characters taken. *)
Fixpoint scan_digits (base acc : Z) (s : string) : Z * nat :=
  match s with
  | EmptyString => (acc, O)
  | String c s' =>
      match digit_in base c with
      | Some d => let (v, k) := scan_digits base (acc * base + d) s' in (v, S k)
      | None => (acc, O)
      end
  end.

Fixpoint count_space (s : string) : nat :=
  match s with
  | String c s' => if isspace c then S (count_space s') else O
  | EmptyString => O
  end.

Fixpoint drop (k : nat) (s : string) : string :=
  match k, s with
  | O, _ => s
  | S k', String _ s' => drop k' s'
  | S _, EmptyString => EmptyString
  end.

(** A leading sign: is it a minus, and how many characters it takes. *)
Definition scan_sign (s : string) : bool * nat :=
  match s with
  | String "-" _ => (true, 1%nat)
  | String "+" _ => (false, 1%nat)
  | _ => (false, O)
  end.

(** Is [s] a [0x] or [0X] followed by a hexadecimal digit? *)
Definition hex_prefix (s : string) : bool :=
  match s with
  | String "0" (String x (String h _)) =>
      (Ascii.eqb x "x" || Ascii.eqb x "X")
      && match digit_in 16 h with Some _ => true | None => false end
  | _ => false
  end.

(** The base to read in and the length of the prefix to skip. With base 0,
    a hexadecimal prefix selects base 16, another leading [0] base 8,
    anything else base 10; base 16 allows the prefix. *)
Definition scan_base (base : Z) (s : string) : Z * nat :=
  if base =? 0 then
    if hex_prefix s then (16, 2%nat)
    else match s with
         | String "0" _ => (8, O)
         | _ => (10, O)
         end
  else if (base =? 16) && hex_prefix s then (16, 2%nat)
  else (base, O).

(** Modelled from the spec: [strtoul] is the C library's, absent from src/;
    this is ISO C's [strtoul(s, &p, base)] for a 32-bit [unsigned long]:
    white space, an optional sign, the base prefix, the digits. The result
    is the value and the offset of [p] in [s]; with no digits the value is
    0 and [p = s]. A value that does not fit is [ULONG_MAX]; a minus sign
    negates in [unsigned long]. The [ERANGE] it may store in [errno] is not
    tracked. *)
Definition strtoul (s : string) (base : Z) : Z * nat :=
  let ws := count_space s in
  let s1 := drop ws s in
  let (neg, sg) := scan_sign s1 in
  let s2 := drop sg s1 in
  let (b, px) := scan_base base s2 in
  let s3 := drop px s2 in
  let (v, k) := scan_digits b 0 s3 in
  match k with
  | O => (0, O)
  | _ =>
      let r := if ULONG_MAX <? v then ULONG_MAX
               else if neg then u32 (- v) else v in
      (r, (ws + sg + px + k)%nat)
  end.

(** [strstr(hay, needle)]: what [hay] holds from the first occurrence of
    [needle] on, or [None] for a null pointer. *)
Fixpoint strstr (hay needle : string) : option string :=
  if String.prefix needle hay then Some hay
  else match hay with
       | EmptyString => None
       | String _ hay' => strstr hay' needle
       end.

Definition strlen (s : string) : nat := String.length s.

End CLib.

(** ** Firmware version: parsing and comparison *)

(** [parse_uint(s, n, tail)]: the value stored in [n], the offset of [tail]
    in [s], and the result [tail != s]. *)
Definition parse_uint_tail (s : string) : bool * Z * nat :=
  let (n, p) := CLib.strtoul s 0 in
  (negb (Nat.eqb p O), u32 n, p).

(** [parse_uint(s, n)]: the result and the value stored in [n] (stored on
    failure too). [tail] is never null; [*tail == 0] says that the offset
    is the length of [s]. *)
Definition parse_uint (s : string) : bool * Z :=
  match parse_uint_tail s with
  | (ok1, n, tail) => (ok1 && Nat.eqb tail (String.length s), n)
  end.

Definition sep : string := String "." (String LF (String CR EmptyString)).

(** The [while] loop of [version_firmware_parse]; [n] is the current token
    (or [None] for null), [tail] the tokenizer's saved position. [fuel]
    bounds the iterations: [None] is running out of it. *)
Fixpoint version_firmware_parse_loop (fuel : nat) (n : option string)
    (tail : string) (i : nat) (v : list Z) : option (bool * list Z) :=
  match n with
  | None => Some (false, v)
  | Some tok =>
      match fuel with
      | O => None
      | S fuel' =>
          let (ok, x) := parse_uint tok in
          let v := store v i x in
          if negb ok then Some (false, v)
          else
            let i := S i in
            if Nat.eqb i 4 then Some (true, v)
            else
              match CLib.strtok_r tail sep with
              | None => version_firmware_parse_loop fuel' None tail i v
              | Some (tok', tail') =>
                  version_firmware_parse_loop fuel' (Some tok') tail' i v
              end
      end
  end.

(** [version_firmware_parse(destroyed_s, v)]: the result and the array [v]
    as the call leaves it. Every iteration increments [i] and the loop is
    left when [i] reaches 4, so four iterations are all there are. *)
Definition version_firmware_parse_fuel (fuel : nat) (destroyed_s : string)
    (v : list Z) : option (bool * list Z) :=
  match CLib.strtok_r destroyed_s sep with
  | None => version_firmware_parse_loop fuel None EmptyString O v
  | Some (tok, tail) => version_firmware_parse_loop fuel (Some tok) tail O v
  end.

Definition version_firmware_parse (destroyed_s : string) (v : list Z)
    : bool * list Z :=
  match version_firmware_parse_fuel 4 destroyed_s v with
  | Some r => r
  | None => (false, v)
  end.

(** [version_firmware_compare_le(min, ver)]: [min] holds [uint8_t], [ver]
    holds [unsigned]; each [min[k]] is promoted to [int] and converted to
    [unsigned] for the comparison. *)
Definition version_firmware_compare_le (min ver : list Z) : bool :=
  let m k := u32 (at_index min k) in
  let w k := at_index ver k in
  (m 0%nat <? w 0%nat)
  || ((m 0%nat =? w 0%nat)
      && ((m 1%nat <? w 1%nat)
          || ((m 1%nat =? w 1%nat)
              && ((m 2%nat <? w 2%nat)
                  || ((m 2%nat =? w 2%nat)
                      && (m 3%nat <=? w 3%nat)))))).

(** The lexicographic rule of the specification, on mathematical integers. *)
Definition lex_le (min ver : list Z) : Prop :=
  let m k := at_index min k in
  let w k := at_index ver k in
  m 0%nat < w 0%nat
  \/ (m 0%nat = w 0%nat
      /\ (m 1%nat < w 1%nat
          \/ (m 1%nat = w 1%nat
              /\ (m 2%nat < w 2%nat
                  \/ (m 2%nat = w 2%nat /\ m 3%nat <= w 3%nat))))).

(** ** The platform: device, scheduler and output streams *)

(** What system calls act on: the state of the operating system and of the
    modem behind it, and the calling task's [errno]. *)
Record World (OS : Type) : Type := mkWorld { os : OS; errno : Z }.
Arguments mkWorld {OS} _ _.
Arguments os {OS} _.
Arguments errno {OS} _.

(** The collaborators of [main.cpp] that other files define. Each one acts
    on the world only; every one of them may change [errno]. A descriptor
    or result of -1 is a failure, as in the source. *)
Class Platform : Type := {
  OS : Type;
  (** [io_tty.hpp] *)
  tty_open : string -> World OS -> Z * World OS;
  tty_set_speed : Z -> Z -> World OS -> bool * World OS;
  tty_use_ctsrts : Z -> World OS -> bool * World OS;
  (** [close(2)], reached through [unique_file] *)
  sys_close : Z -> World OS -> World OS;
  (** the [dbg_perror] macro *)
  dbg_perror : string -> World OS -> World OS;
  (** [at.hpp]: descriptor, command, buffer before, buffer size; the
      result and the buffer after *)
  exec_AT_verbose : Z -> string -> string -> Z -> World OS -> (Z * string) * World OS;
  mode_AT : World OS -> World OS;
  mode_default : World OS -> World OS;
  (** [systemlib.h]: task name and argument vector *)
  task_spawn_cmd : string -> list string -> World OS -> Z * World OS;
  (** [dispatch.hpp] *)
  process_one_command : Z -> World OS -> World OS;
  (** the value an uninitialised [unsigned] local happens to hold *)
  stack_junk : nat -> Z
}.

Definition B9600 : Z := 9600.

Inductive stream : Type := stdout | stderr.

(** What the program does that can be observed from outside: what it
    prints and which collaborators it calls, with their results. *)
Inductive event : Type :=
| Print (f : stream) (text : string)
| Perror (prefix : string) (err : Z)
| Tty_open (name : string) (fd : Z)
| Tty_set_speed (fd speed : Z) (ok : bool)
| Tty_use_ctsrts (fd : Z) (ok : bool)
| Close (fd : Z)
| Exec_AT (fd : Z) (cmd : string) (r : Z)
| Mode_AT
| Mode_default
| Task_spawn (name : string) (argv : list string) (r : Z)
| Process_one (fd : Z).

Definition nl : string := String LF EmptyString.

Section Program.

Context {P : Platform}.

(** The two file-scope flags, the world, and the trace so far. *)
Record State : Type := mkState {
  daemon_should_run : bool;
  daemon_running : bool;
  world : World OS;
  log : list event
}.

Definition M (A : Type) : Type := State -> A * State.

Definition ret {A} (a : A) : M A := fun s => (a, s).

Definition bind {A B} (c : M A) (k : A -> M B) : M B :=
  fun s => let (a, s') := c s in k a s'.

Notation "x <- c ;; k" := (bind c (fun x => k))
  (at level 61, c at next level, right associativity).
Notation "' pat <- c ;; k" := (bind c (fun x => match x with pat => k end))
  (at level 61, pat pattern, c at next level, right associativity).
Notation "c ;;; k" := (bind c (fun _ => k))
  (at level 61, right associativity).

(** The short-circuit [and] of two effectful conditions. *)
Definition and_then (a b : M bool) : M bool :=
  x <- a ;; if x then b else ret false.

Definition emit (e : event) : M unit :=
  fun s => (tt, mkState (daemon_should_run s) (daemon_running s) (world s)
                        (log s ++ [e])%list).

Definition get_should_run : M bool := fun s => (daemon_should_run s, s).
Definition get_running : M bool := fun s => (daemon_running s, s).

Definition set_should_run (b : bool) : M unit :=
  fun s => (tt, mkState b (daemon_running s) (world s) (log s)).

Definition set_running (b : bool) : M unit :=
  fun s => (tt, mkState (daemon_should_run s) b (world s) (log s)).

Definition get_errno : M Z := fun s => (errno (world s), s).

Definition set_errno (e : Z) : M unit :=
  fun s => (tt, mkState (daemon_should_run s) (daemon_running s)
                        (mkWorld (os (world s)) e) (log s)).

(** A call of a collaborator: it acts on the world. *)
Definition sys {A} (f : World OS -> A * World OS) : M A :=
  fun s => let (a, w) := f (world s) in
           (a, mkState (daemon_should_run s) (daemon_running s) w (log s)).

Definition sys_ (f : World OS -> World OS) : M unit :=
  sys (fun w => (tt, f w)).

Definition printf (text : string) : M unit := emit (Print stdout text).
Definition eprintf (text : string) : M unit := emit (Print stderr text).

(** [perror(prefix)]: reports the current [errno] on [stderr]. *)
Definition perror (prefix : string) : M unit :=
  e <- get_errno ;; emit (Perror prefix e).

(** *** [unique_file] *)

(** Modelled from the spec: [unique_file] is declared in [unique_file.hpp],
    absent from src/. It is the spec's ScopedSerialHandle: it owns one
    descriptor, is Open or Closed, a Closed handle exposes no usable
    descriptor ([fileno] is -1), closing is idempotent, and the descriptor
    is released when the handle goes out of scope. *)
Record unique_file : Type := mk_unique_file { fileno : Z }.

Definition close (d : unique_file) : M unique_file :=
  if fileno d =? -1 then ret d
  else
    sys_ (sys_close (fileno d)) ;;;
    emit (Close (fileno d)) ;;;
    ret (mk_unique_file (-1)).

(** The destructor, run where a handle's scope ends. *)
Definition destroy (d : unique_file) : M unit :=
  _ <- close d ;; ret tt.

(** *** [open_serial] *)

Definition open_serial (name : string) : M unique_file :=
  fd <- sys (tty_open name) ;;
  emit (Tty_open name fd) ;;;
  let d := mk_unique_file fd in
  ok <- and_then (ret (negb (fileno d =? -1)))
       (and_then
          (b <- sys (tty_set_speed (fileno d) B9600) ;;
           emit (Tty_set_speed (fileno d) B9600 b) ;;; ret b)
          (b <- sys (tty_use_ctsrts (fileno d)) ;;
           emit (Tty_use_ctsrts (fileno d) b) ;;; ret b)) ;;
  if negb ok then
    true_errno <- get_errno ;;
    sys_ (dbg_perror name) ;;;
    d <- close d ;;
    set_errno true_errno ;;;
    ret d
  else ret d.

(** *** [maintenance_allowed] *)

Definition maintenance_allowed : M bool :=
  running <- get_running ;;
  (if running then eprintf ("Stop the daemon first." ++ nl) else ret tt) ;;;
  running <- get_running ;;
  ret (negb running).

(** *** [exec_all_AT] *)

(** The [for] loop over the commands [arg[i]], [i < argc], from index [i]
    on; [arg] holds the [argc - i] commands still to run. *)
Fixpoint exec_all_AT_loop (dev : Z) (i : Z) (arg : list string)
    (buf : string) (size : Z) : M (bool * string) :=
  match arg with
  | [] => ret (true, buf)
  | a :: arg' =>
      printf (dec i ++ "# ") ;;;
      '(r, buf') <- sys (exec_AT_verbose dev a buf size) ;;
      emit (Exec_AT dev a r) ;;;
      if r =? -1 then ret (false, buf')
      else exec_all_AT_loop dev (i + 1) arg' buf' size
  end.

(** [exec_all_AT(devname, argc, arg, buf, size)]; [arg] is the [argc]
    commands. The result and the buffer as the call leaves it. *)
Definition exec_all_AT (devname : string) (arg : list string)
    (buf : string) (size : Z) : M (bool * string) :=
  allowed <- maintenance_allowed ;;
  if negb allowed then ret (false, buf)
  else
    serial <- open_serial devname ;;
    if fileno serial =? -1 then destroy serial ;;; ret (false, buf)
    else
      r <- exec_all_AT_loop (fileno serial) 0 arg buf size ;;
      destroy serial ;;;
      ret r.

(** [exec_all_AT(devname, argc, arg)], with its own zeroed buffer. *)
Definition exec_all_AT_3 (devname : string) (arg : list string) : M bool :=
  '(ok, _) <- exec_all_AT devname arg EmptyString 32 ;;
  ret ok.

(** *** [version_firmware_check] *)

Definition BL600_VERSION_FIRMWARE_MIN : list Z := [1; 8; 88; 0].
Definition at_i_3 : list string := ["AT I 3"].
Definition prefix : string := "10" ++ String TAB ("3" ++ String TAB EmptyString).

Definition show4 (v : list Z) : string :=
  dec (at_index v 0) ++ " " ++ dec (at_index v 1) ++ " "
  ++ dec (at_index v 2) ++ " " ++ dec (at_index v 3).

(** [unsigned v4[4];] is not initialised. *)
Definition v4_uninitialised : list Z :=
  map (fun k => u32 (stack_junk k)) (seq 0 4).

Definition version_firmware_check (devname : string) : M bool :=
  let v4 := v4_uninitialised in
  '(ok, buf) <- exec_all_AT devname at_i_3 EmptyString 32 ;;
  let p := if ok then CLib.strstr buf prefix else None in
  let ok := if ok then match p with Some _ => true | None => false end
            else ok in
  '(ok, v4) <-
    (if ok then
       let p := CLib.drop (CLib.strlen prefix)
                  (match p with Some t => t | None => EmptyString end) in
       let (ok, v4) := version_firmware_parse p v4 in
       let m := BL600_VERSION_FIRMWARE_MIN in
       printf ("required version: " ++ show4 m ++ nl) ;;;
       printf ("modile's version: " ++ show4 v4 ++ nl) ;;;
       ret (ok, v4)
     else ret (ok, v4)) ;;
  if ok then
    let ok := version_firmware_compare_le BL600_VERSION_FIRMWARE_MIN v4 in
    (if ok then printf ("ready to work." ++ nl)
     else printf ("upgrade required." ++ nl)) ;;;
    ret ok
  else ret ok.

(** *** [main] *)

Definition streq (a b : string) : bool := String.eqb a b.

Definition usage (name : string) : M unit :=
  let t := String TAB EmptyString in
  eprintf ("Usage:" ++ nl) ;;;
  eprintf (t ++ name ++ " start TTY" ++ nl) ;;;
  eprintf (t ++ name ++ " stop" ++ nl) ;;;
  eprintf (t ++ name ++ " status" ++ nl) ;;;
  eprintf (t ++ name ++ " mode at|default" ++ nl) ;;;
  eprintf (t ++ name ++ " at TTY command [command...]" ++ nl) ;;;
  eprintf (t ++ name ++ " firmware-version TTY" ++ nl) ;;;
  eprintf nl.

(** [main(argc, argv)] with [argc] the length of [argv], which holds at
    least the program name; the result is the exit status. The task that [start] spawns runs [daemon] on its own
    (see [daemon_step]); here the spawn is the call of the scheduler. *)
Definition main (argv : list string) : M Z :=
  let argc := Z.of_nat (List.length argv) in
  let arg k := nth k argv EmptyString in
  if argc <? 2 then usage (arg 0%nat) ;;; ret 1
  else if (argc =? 3) && streq (arg 1%nat) "start" then
    running <- get_running ;;
    if running then
      eprintf (arg 0%nat ++ " is already running." ++ nl) ;;; ret 1
    else
      set_should_run true ;;;
      r <- sys (task_spawn_cmd (arg 0%nat) (skipn 2 argv)) ;;
      emit (Task_spawn (arg 0%nat) (skipn 2 argv) r) ;;;
      if r =? -1 then perror "task_spawn_cmd" ;;; ret (-1)
      else ret 0
  else if (argc =? 2) && streq (arg 1%nat) "status" then
    should <- get_should_run ;;
    (if should then printf (arg 0%nat ++ " should run." ++ nl)
     else printf (arg 0%nat ++ " should NOT run." ++ nl)) ;;;
    running <- get_running ;;
    (if running then printf (arg 0%nat ++ " is running." ++ nl)
     else printf (arg 0%nat ++ " is NOT running." ++ nl)) ;;;
    ret 0
  else if (argc =? 2) && streq (arg 1%nat) "stop" then
    running <- get_running ;;
    if negb running then
      eprintf (arg 0%nat ++ " is NOT running." ++ nl) ;;; ret 1
    else set_should_run false ;;; ret 0
  else if (argc =? 3) && streq (arg 1%nat) "mode" then
    allowed <- maintenance_allowed ;;
    if negb allowed then ret 1
    else if streq (arg 2%nat) "at" then
      sys_ mode_AT ;;; emit Mode_AT ;;; ret 0
    else if streq (arg 2%nat) "default" then
      sys_ mode_default ;;; emit Mode_default ;;; ret 0
    else usage (arg 0%nat) ;;; ret 1
  else if (3 <? argc) && streq (arg 1%nat) "at" then
    ok <- and_then maintenance_allowed
            (exec_all_AT_3 (arg 2%nat) (skipn 3 argv)) ;;
    if negb ok then ret 1 else ret 0
  else if ((argc =? 3) || (argc =? 4))
          && streq (arg 1%nat) "firmware-version" then
    ok <- and_then maintenance_allowed (version_firmware_check (arg 2%nat)) ;;
    if negb ok then ret 1 else ret 0
  else usage (arg 0%nat) ;;; ret 1.

(** *** The daemon task *)

(** Where the task is in [daemon]: at its entry, after [open_serial] has
    returned [d], in the [while] loop holding [d], or returned. *)
Inductive daemon_pc : Type :=
| D_entry
| D_opened (d : unique_file)
| D_loop (d : unique_file)
| D_returned (status : Z).

Record daemon_cfg : Type := mk_cfg { pc : daemon_pc; st : State }.

(** One step of [daemon(argc, argv)] with [argv[0] = name] and
    [argv[1] = path]; [None] once it has returned. The [DevLog] and
    blocking wrappers and the two status objects are constructed without
    touching the state modelled here. *)
Definition daemon_step (name path : string) (c : daemon_cfg)
    : option daemon_cfg :=
  match pc c with
  | D_entry =>
      let (d, s) :=
        (eprintf (name ++ " starting..." ++ nl) ;;; open_serial path) (st c) in
      Some (mk_cfg (D_opened d) s)
  | D_opened d =>
      if fileno d =? -1 then
        let (_, s) := (perror name ;;; destroy d) (st c) in
        Some (mk_cfg (D_returned 1) s)
      else
        let (_, s) :=
          (set_running true ;;; eprintf (name ++ " started." ++ nl)) (st c) in
        Some (mk_cfg (D_loop d) s)
  | D_loop d =>
      if daemon_should_run (st c) then
        let (_, s) :=
          (sys_ (process_one_command (fileno d)) ;;;
           emit (Process_one (fileno d))) (st c) in
        Some (mk_cfg (D_loop d) s)
      else
        let (_, s) :=
          (eprintf (name ++ " stopped." ++ nl) ;;;
           set_running false ;;;
           destroy d) (st c) in
        Some (mk_cfg (D_returned 0) s)
  | D_returned _ => None
  end.

(** What the foreground may do between two steps of the task: anything but
    write [daemon_running], which [main] only reads, and take back what
    the trace already holds. *)
Definition interference (s s' : State) : Prop :=
  daemon_running s' = daemon_running s
  /\ exists es : list event, log s' = (log s ++ es)%list.

Inductive daemon_run (name path : string) : daemon_cfg -> daemon_cfg -> Prop :=
| run_here : forall c, daemon_run name path c c
| run_task : forall c c1 c2,
    daemon_run name path c c1 ->
    daemon_step name path c1 = Some c2 ->
    daemon_run name path c c2
| run_env : forall c c1 s',
    daemon_run name path c c1 ->
    interference (st c1) s' ->
    daemon_run name path c (mk_cfg (pc c1) s').

(** The task left alone for [n] steps; [None] if it returns before. *)
Fixpoint daemon_steps (name path : string) (n : nat) (c : daemon_cfg)
    : option daemon_cfg :=
  match n with
  | O => Some c
  | S n' =>
      match daemon_steps name path n' c with
      | Some c1 => daemon_step name path c1
      | None => None
      end
  end.

End Program.

(** ** Definitions used to state the properties *)

(** The fields of [s] between single delimiters, empty ones included:
    what a splitter that does not merge delimiters would give. *)
Fixpoint fields (sep s : string) : list string :=
  match s with
  | EmptyString => [EmptyString]
  | String c s' =>
      if CLib.mem_char c sep then EmptyString :: fields sep s'
      else match fields sep s' with
           | f :: fs => String c f :: fs
           | [] => [String c EmptyString]
           end
  end.

Definition nonempty (s : string) : bool :=
  match s with EmptyString => false | String _ _ => true end.

(** The tokens of [s]: its non-empty fields, in order. *)
Definition tokens (sep s : string) : list string :=
  filter nonempty (fields sep s).

(** Reading version components off a list of tokens, from component [i]. *)
Fixpoint parse_tokens (toks : list string) (i : nat) (v : list Z)
    : bool * list Z :=
  match toks with
  | [] => (false, v)
  | t :: ts =>
      let (ok, x) := parse_uint t in
      let v := store v i x in
      if negb ok then (false, v)
      else if Nat.eqb (S i) 4 then (true, v)
      else parse_tokens ts (S i) v
  end.


(** [hay] contains [needle]. *)
Definition contains (hay needle : string) : Prop :=
  exists a b, hay = a ++ needle ++ b.

(** The trace of a batch: each command that ran, with its index printed
    before it and its result. *)
Fixpoint batch_trace (fd i : Z) (ran : list (string * Z)) : list event :=
  match ran with
  | [] => []
  | (cmd, r) :: ran' =>
      Print stdout (dec i ++ "# ") :: Exec_AT fd cmd r
      :: batch_trace fd (i + 1) ran'
  end.

(** The state [s] after the events [es]. *)
Definition logged {P : Platform} (s : State) (es : list event) : State :=
  mkState (daemon_should_run s) (daemon_running s) (world s)
          (log s ++ es)%list.

(** The state [s] with the world [w], after the events [es]. *)
Definition with_world {P : Platform} (s : State) (w : World OS)
    (es : list event) : State :=
  mkState (daemon_should_run s) (daemon_running s) w (log s ++ es)%list.

(** What the modem answers when the commands [arg] are sent in order on
    the descriptor [fd], each on the buffer and the world that the one
    before left: for every command its result, with the buffer and the
    world after it, whether or not an earlier command failed. *)
Fixpoint answers {P : Platform} (fd size : Z) (arg : list string)
    (buf : string) (w : World OS) : list (Z * string * World OS) :=
  match arg with
  | [] => []
  | a :: arg' =>
      let '((r, buf'), w') := exec_AT_verbose fd a buf size w in
      (r, buf', w') :: answers fd size arg' buf' w'
  end.

Definition result {W : Type} (o : Z * string * W) : Z := fst (fst o).

(** The answers up to the first failure, that one included. *)
Fixpoint upto_failure {W : Type} (outs : list (Z * string * W))
    : list (Z * string * W) :=
  match outs with
  | [] => []
  | o :: outs' => if result o =? -1 then [o] else o :: upto_failure outs'
  end.

(** The buffer and the world after the answers [ran], from [buf] and [w]. *)
Fixpoint left_by {W : Type} (ran : list (Z * string * W)) (buf : string)
    (w : W) : string * W :=
  match ran with
  | [] => (buf, w)
  | (_, buf', w') :: ran' => left_by ran' buf' w'
  end.

(** A command succeeded when [exec_AT_verbose] did not return -1. *)
Definition succeeded (r : Z) : Prop := r <> -1.

(** What [maintenance_allowed] prints when it refuses. *)
Definition refusal : event := Print stderr ("Stop the daemon first." ++ nl).

(** The first line of the daemon task. *)
Definition starting_line (name : string) : event :=
  Print stderr (name ++ " starting..." ++ nl).

(** The trace of an [open_serial] that gives the open descriptor [fd]. *)
Definition open_block (path : string) (fd : Z) : list event :=
  [Tty_open path fd; Tty_set_speed fd B9600 true; Tty_use_ctsrts fd true].

(** Since the trace [l0], the task [name] has started and opened and
    configured [path] as descriptor [fd]: the trace [l] holds, after [l0],
    its first line followed by the open, the speed and the flow control,
    all successful. *)
Definition device_opened (name path : string) (fd : Z) (l0 l : list event)
    : Prop :=
  exists before after : list event,
    l = (l0 ++ before ++ starting_line name :: open_block path fd ++ after)%list.

(** What holds of the task at each point of an execution from [s0]. *)
Definition daemon_invariant {P : Platform} (name path : string)
    (s0 : State) (c : daemon_cfg) : Prop :=
  match pc c with
  | D_entry =>
      daemon_running (st c) = daemon_running s0
      /\ exists es, log (st c) = (log s0 ++ es)%list
  | D_opened d =>
      daemon_running (st c) = daemon_running s0
      /\ (exists es, log (st c) = (log s0 ++ es)%list)
      /\ (fileno d <> -1 ->
          device_opened name path (fileno d) (log s0) (log (st c)))
  | D_loop d =>
      fileno d <> -1
      /\ daemon_running (st c) = true
      /\ device_opened name path (fileno d) (log s0) (log (st c))
  | D_returned status =>
      (status = 1 /\ daemon_running (st c) = daemon_running s0)
      \/ (status = 0 /\ daemon_running (st c) = false
          /\ exists fd, fd <> -1
                /\ device_opened name path fd (log s0) (log (st c)))
  end.

(** The lines that [version_firmware_check] prints. *)
Definition required_line : event :=
  Print stdout ("required version: 1 8 88 0" ++ nl).

Definition version_line (v : string) : event :=
  Print stdout ("modile's version: " ++ v ++ nl).

Definition ready_line : event := Print stdout ("ready to work." ++ nl).
Definition upgrade_line : event := Print stdout ("upgrade required." ++ nl).

(** ** A bench platform: a scripted modem

    The device opens and configures, and the scheduler spawns, as the
    switches say; the modem answers the commands with the scripted replies,
    in order, and fails once they are used up. [close] and [dbg_perror]
    overwrite [errno]. *)

Record Bench : Type := mkBench {
  bench_open_ok : bool;
  bench_speed_ok : bool;
  bench_ctsrts_ok : bool;
  bench_spawn_ok : bool;
  bench_replies : list (Z * string)
}.

Definition ENOENT : Z := 2.
Definition EIO : Z := 5.
Definition EBADF : Z := 9.
Definition ENOMEM : Z := 12.
Definition ENOTTY : Z := 25.

Definition fail_with (e : Z) (w : World Bench) : World Bench :=
  mkWorld (os w) e.

Definition bench : Platform := {|
  OS := Bench;
  tty_open := fun _ w =>
    if bench_open_ok (os w) then (3, w) else (-1, fail_with ENOENT w);
  tty_set_speed := fun _ _ w =>
    if bench_speed_ok (os w) then (true, w) else (false, fail_with ENOTTY w);
  tty_use_ctsrts := fun _ w =>
    if bench_ctsrts_ok (os w) then (true, w) else (false, fail_with EIO w);
  sys_close := fun _ w => fail_with EBADF w;
  dbg_perror := fun _ w => fail_with 0 w;
  exec_AT_verbose := fun _ _ buf _ w =>
    match bench_replies (os w) with
    | [] => ((-1, buf), fail_with EIO w)
    | (r, text) :: rest =>
        let o := os w in
        ((r, text),
         mkWorld (mkBench (bench_open_ok o) (bench_speed_ok o)
                          (bench_ctsrts_ok o) (bench_spawn_ok o) rest)
                 (errno w))
    end;
  mode_AT := fun w => w;
  mode_default := fun w => w;
  task_spawn_cmd := fun _ _ w =>
    if bench_spawn_ok (os w) then (7, w) else (-1, fail_with ENOMEM w);
  process_one_command := fun _ w => w;
  stack_junk := fun _ => 3735928559
|}.

(** A bench state: the flags, the switches (open, speed, flow control,
    spawn) and the replies; [errno] is 0 and nothing is logged. *)
Definition bench_state (should running : bool) (sw : bool * bool * bool * bool)
    (replies : list (Z * string)) : @State bench :=
  let '(o, sp, ct, tk) := sw in
  @mkState bench should running (mkWorld (mkBench o sp ct tk replies) 0) [].

Definition all_ok : bool * bool * bool * bool := (true, true, true, true).

Definition crlf : string := String CR (String LF EmptyString).

Definition tty : string := "/dev/ttyS2".

(** The task on the bench: it starts, opens the device, enters the loop
    and handles one message; then the foreground asks it to stop. *)
Definition bench_loop : @daemon_cfg bench :=
  Eval vm_compute in
    match @daemon_steps bench "mobile" tty 3
            (mk_cfg D_entry (bench_state true false all_ok [])) with
    | Some c => c
    | None => mk_cfg D_entry (bench_state true false all_ok [])
    end.

Definition bench_stopping : @daemon_cfg bench :=
  mk_cfg (pc bench_loop)
    (mkState false (daemon_running (st bench_loop)) (world (st bench_loop))
       (log (st bench_loop))).

(** What [usage] prints. *)
Definition usage_lines (name : string) : list event :=
  let t := String TAB EmptyString in
  [Print stderr ("Usage:" ++ nl);
   Print stderr (t ++ name ++ " start TTY" ++ nl);
   Print stderr (t ++ name ++ " stop" ++ nl);
   Print stderr (t ++ name ++ " status" ++ nl);
   Print stderr (t ++ name ++ " mode at|default" ++ nl);
   Print stderr (t ++ name ++ " at TTY command [command...]" ++ nl);
   Print stderr (t ++ name ++ " firmware-version TTY" ++ nl);
   Print stderr nl].

(** What [status] prints for the two flags. *)
Definition status_lines (name : string) (should running : bool) : list event :=
  [Print stdout (name ++ (if should then " should run." else " should NOT run.")
                 ++ nl);
   Print stdout (name ++ (if running then " is running." else " is NOT running.")
                 ++ nl)].

(** The command names that [main] knows. *)
Definition commands : list string :=
  ["start"; "status"; "stop"; "mode"; "at"; "firmware-version"].

(** A version written the way the modem reports it. *)
Definition dotted (a b c d : Z) : string :=
  dec a ++ "." ++ dec b ++ "." ++ dec c ++ "." ++ dec d.

(** The value of a decimal numeral read after [acc]. *)
Fixpoint uint_value (d : Decimal.uint) (acc : Z) : Z :=
  match d with
  | Decimal.Nil => acc
  | Decimal.D0 d => uint_value d (acc * 10 + 0)
  | Decimal.D1 d => uint_value d (acc * 10 + 1)
  | Decimal.D2 d => uint_value d (acc * 10 + 2)
  | Decimal.D3 d => uint_value d (acc * 10 + 3)
  | Decimal.D4 d => uint_value d (acc * 10 + 4)
  | Decimal.D5 d => uint_value d (acc * 10 + 5)
  | Decimal.D6 d => uint_value d (acc * 10 + 6)
  | Decimal.D7 d => uint_value d (acc * 10 + 7)
  | Decimal.D8 d => uint_value d (acc * 10 + 8)
  | Decimal.D9 d => uint_value d (acc * 10 + 9)
  end.

(** * Properties *)

(** ** Version comparison *)

Lemma u32_small (x : Z) : is_u32 x -> u32 x = x.
Proof. unfold is_u32, u32. intros H. apply Z.mod_small. exact H. Qed.

Lemma u8_is_u32 (x : Z) : is_u8 x -> is_u32 x.
Proof. unfold is_u8, is_u32, UINT_BITS. intros H. simpl in *. lia. Qed.

Lemma u32_u8 (x : Z) : is_u8 x -> u32 x = x.
Proof. intros H. apply u32_small, u8_is_u32, H. Qed.

Lemma compare_le_unfold (m0 m1 m2 m3 v0 v1 v2 v3 : Z) :
  is_u8 m0 -> is_u8 m1 -> is_u8 m2 -> is_u8 m3 ->
  version_firmware_compare_le [m0; m1; m2; m3] [v0; v1; v2; v3]
  = (m0 <? v0)
    || ((m0 =? v0)
        && ((m1 <? v1)
            || ((m1 =? v1) && ((m2 <? v2) || ((m2 =? v2) && (m3 <=? v3)))))).
Proof.
  intros H0 H1 H2 H3. unfold version_firmware_compare_le, at_index. simpl.
  rewrite !u32_u8 by assumption. reflexivity.
Qed.

Ltac bool_to_prop :=
  repeat rewrite ?orb_true_iff, ?andb_true_iff, ?orb_false_iff,
    ?andb_false_iff, ?Z.ltb_lt, ?Z.eqb_eq, ?Z.leb_le, ?Z.ltb_ge,
    ?Z.eqb_neq, ?Z.leb_gt.

(** C1. On a minimum of [uint8_t] components and a version of [unsigned]
    components, [version_firmware_compare_le] is true exactly when the
    lexicographic rule holds; equal tuples give true, a version one less
    in build only gives false, and a version greater in an earlier
    component gives true even with a lower build. *)
Theorem version_firmware_compare_le_lexicographic :
  forall m0 m1 m2 m3 v0 v1 v2 v3 : Z,
    is_u8 m0 -> is_u8 m1 -> is_u8 m2 -> is_u8 m3 ->
    is_u32 v0 -> is_u32 v1 -> is_u32 v2 -> is_u32 v3 ->
    (version_firmware_compare_le [m0; m1; m2; m3] [v0; v1; v2; v3] = true
     <-> lex_le [m0; m1; m2; m3] [v0; v1; v2; v3])
    /\ version_firmware_compare_le [m0; m1; m2; m3] [m0; m1; m2; m3] = true
    /\ (0 < m3 ->
        version_firmware_compare_le [m0; m1; m2; m3] [m0; m1; m2; m3 - 1]
        = false)
    /\ (v3 < m3 ->
        m0 < v0 \/ (m0 = v0 /\ m1 < v1) \/ (m0 = v0 /\ m1 = v1 /\ m2 < v2) ->
        version_firmware_compare_le [m0; m1; m2; m3] [v0; v1; v2; v3] = true).
Proof.
  intros m0 m1 m2 m3 v0 v1 v2 v3 M0 M1 M2 M3 V0 V1 V2 V3.
  rewrite !compare_le_unfold by assumption.
  unfold lex_le, at_index; simpl.
  repeat split.
  - bool_to_prop. tauto.
  - bool_to_prop. tauto.
  - bool_to_prop. right. split; [reflexivity|]. right. split; [reflexivity|].
    right. split; [reflexivity | lia].
  - intros Hpos. bool_to_prop. lia.
  - intros Hlow Hearly. bool_to_prop. lia.
Qed.

Lemma version_firmware_compare_le_lexicographic_witness :
  (is_u8 1 /\ is_u8 8 /\ is_u8 88 /\ is_u8 1)
  /\ (is_u32 1 /\ is_u32 9 /\ is_u32 88 /\ is_u32 0)
  /\ (version_firmware_compare_le [1; 8; 88; 1] [1; 9; 88; 0] = true
      <-> lex_le [1; 8; 88; 1] [1; 9; 88; 0])
  /\ version_firmware_compare_le [1; 8; 88; 1] [1; 8; 88; 1] = true
  /\ version_firmware_compare_le [1; 8; 88; 1] [1; 8; 88; 1 - 1] = false
  /\ version_firmware_compare_le [1; 8; 88; 1] [1; 9; 88; 0] = true.
Proof.
  assert (U8 : is_u8 1 /\ is_u8 8 /\ is_u8 88 /\ is_u8 1)
    by (unfold is_u8; simpl; lia).
  assert (U32 : is_u32 1 /\ is_u32 9 /\ is_u32 88 /\ is_u32 0)
    by (unfold is_u32, UINT_BITS; simpl; lia).
  destruct U8 as (a0 & a1 & a2 & a3). destruct U32 as (b0 & b1 & b2 & b3).
  destruct (version_firmware_compare_le_lexicographic
              1 8 88 1 1 9 88 0 a0 a1 a2 a3 b0 b1 b2 b3)
    as (Hiff & Heq & Hless & Hearly).
  split; [exact (conj a0 (conj a1 (conj a2 a3)))|].
  split; [exact (conj b0 (conj b1 (conj b2 b3)))|].
  split; [exact Hiff|]. split; [exact Heq|].
  split; [apply Hless; lia|].
  apply Hearly; [lia | right; left; lia].
Defined.

(** ** Tokenizing and parsing the version string *)

Section Tokenizer.

Variable seps : string.

Lemma fields_not_nil (s : string) : fields seps s <> [].
Proof.
  destruct s as [|c s]; simpl; [discriminate|].
  destruct (CLib.mem_char c seps); [discriminate|].
  destruct (fields seps s); discriminate.
Qed.

(** [break_sep] cuts the first field off, and stops on the delimiter that
    ends it. *)
Lemma break_sep_fields (s : string) :
  forall tok rest, CLib.break_sep seps s = (tok, rest) ->
  exists fs, fields seps s = tok :: fs
    /\ match rest with
       | EmptyString => fs = []
       | String _ save => fs = fields seps save
       end.
Proof.
  induction s as [|c s IH]; simpl; intros tok rest H.
  - inversion H; subst. exists []. split; reflexivity.
  - destruct (CLib.mem_char c seps) eqn:Hc.
    + inversion H; subst. exists (fields seps s). split; reflexivity.
    + destruct (CLib.break_sep seps s) as [tok' rest'] eqn:Hb.
      inversion H; subst.
      destruct (IH tok' rest eq_refl) as (fs & Hf & Hrest).
      exists fs. rewrite Hf. split; [reflexivity | exact Hrest].
Qed.

Lemma strtok_r_skips (c : ascii) (s : string) :
  CLib.mem_char c seps = true ->
  CLib.strtok_r (String c s) seps = CLib.strtok_r s seps.
Proof. intros H. unfold CLib.strtok_r. simpl. rewrite H. reflexivity. Qed.

Lemma tokens_skips (c : ascii) (s : string) :
  CLib.mem_char c seps = true ->
  tokens seps (String c s) = tokens seps s.
Proof. intros H. unfold tokens. simpl. rewrite H. reflexivity. Qed.

(** [strtok_r] returns the first token and leaves the others to come. *)
Lemma strtok_r_tokens (s : string) :
  match CLib.strtok_r s seps with
  | None => tokens seps s = []
  | Some (tok, save) => tokens seps s = tok :: tokens seps save
  end.
Proof.
  induction s as [|c s IH].
  - reflexivity.
  - destruct (CLib.mem_char c seps) eqn:Hc.
    + rewrite strtok_r_skips, tokens_skips by exact Hc. exact IH.
    + clear IH. unfold CLib.strtok_r.
      replace (CLib.skip_sep seps (String c s)) with (String c s)
        by (simpl; rewrite Hc; reflexivity).
      destruct (CLib.break_sep seps (String c s)) as [tok rest] eqn:Hb.
      destruct (break_sep_fields _ _ _ Hb) as (fs & Hf & Hrest).
      assert (Htok : nonempty tok = true).
      { simpl in Hb. rewrite Hc in Hb.
        destruct (CLib.break_sep seps s). inversion Hb. reflexivity. }
      unfold tokens. rewrite Hf. simpl. rewrite Htok.
      destruct rest as [|d save]; subst fs; reflexivity.
Qed.

(** A delimiter separates the fields before it from those after it. *)
Lemma fields_app_delimiter (a x : string) (d : ascii) :
  CLib.mem_char d seps = true ->
  fields seps (a ++ String d x) = (fields seps a ++ fields seps x)%list.
Proof.
  intros Hd. induction a as [|c a IH]; simpl.
  - rewrite Hd. reflexivity.
  - destruct (CLib.mem_char c seps).
    + rewrite IH. reflexivity.
    + rewrite IH. destruct (fields seps a) as [|f fs] eqn:Hf;
        [exfalso; exact (fields_not_nil _ Hf) | reflexivity].
Qed.

Lemma tokens_app_delimiter (a x : string) (d : ascii) :
  CLib.mem_char d seps = true ->
  tokens seps (a ++ String d x) = (tokens seps a ++ tokens seps x)%list.
Proof.
  intros Hd. unfold tokens. rewrite fields_app_delimiter by exact Hd.
  apply filter_app.
Qed.

(** Doubling a delimiter adds an empty field and no token. *)
Lemma tokens_delimiter_run (a b : string) (d1 d2 : ascii) :
  CLib.mem_char d1 seps = true -> CLib.mem_char d2 seps = true ->
  tokens seps (a ++ String d1 (String d2 b))
  = tokens seps (a ++ String d1 b).
Proof.
  intros H1 H2. rewrite !tokens_app_delimiter by exact H1.
  rewrite tokens_skips by exact H2. reflexivity.
Qed.

End Tokenizer.

Lemma parse_uint_is_u32 (t : string) : is_u32 (snd (parse_uint t)).
Proof.
  unfold parse_uint, parse_uint_tail.
  destruct (CLib.strtoul t 0) as [n p]. simpl.
  unfold is_u32, u32, UINT_BITS. apply Z.mod_pos_bound. reflexivity.
Qed.

(** The loop reads the current token and those the tokenizer still holds;
    [4 - i] iterations are enough. *)
Lemma version_firmware_parse_loop_tokens (fuel : nat) :
  forall n tail i v,
    (4 - i <= fuel)%nat -> (i < 4)%nat ->
    version_firmware_parse_loop fuel n tail i v
    = Some (parse_tokens
              (match n with Some t => t :: tokens sep tail | None => [] end)
              i v).
Proof.
  induction fuel as [|fuel IH]; intros n tail i v Hfuel Hi.
  - lia.
  - destruct n as [tok|]; [|reflexivity].
    simpl. destruct (parse_uint tok) as [ok x]. destruct ok; simpl; [|reflexivity].
    destruct i as [|[|[|[|i]]]]; try lia; simpl; try reflexivity;
      pose proof (strtok_r_tokens sep tail) as Ht;
      (destruct (CLib.strtok_r tail sep) as [[tok' tail']|];
       rewrite Ht; rewrite IH by lia; reflexivity).
Qed.

Lemma version_firmware_parse_fuel_tokens (fuel : nat) (s : string) (v : list Z) :
  (4 <= fuel)%nat ->
  version_firmware_parse_fuel fuel s v = Some (parse_tokens (tokens sep s) 0 v).
Proof.
  intros Hfuel. unfold version_firmware_parse_fuel.
  pose proof (strtok_r_tokens sep s) as Ht.
  destruct (CLib.strtok_r s sep) as [[tok tail]|]; rewrite Ht;
    rewrite version_firmware_parse_loop_tokens by lia; reflexivity.
Qed.

Lemma version_firmware_parse_tokens (s : string) (v : list Z) :
  version_firmware_parse s v = parse_tokens (tokens sep s) 0 v.
Proof.
  unfold version_firmware_parse.
  rewrite version_firmware_parse_fuel_tokens by lia. reflexivity.
Qed.


Ltac parse_cases toks :=
  destruct toks as [|? [|? [|? [|? ?]]]]; simpl;
  repeat match goal with
         | |- context [parse_uint ?t] =>
             let E := fresh "E" in
             destruct (parse_uint t) as [[] ?] eqn:E; simpl
         end.



(** C9. [strtok_r] takes a run of delimiters for one separator: doubling a
    delimiter never changes what [version_firmware_parse] returns, which is
    read off the non-empty fields alone. So ["1..8.88.0"], whose second
    field is empty, and a version whose components are separated by CR LF
    pairs both parse to 1 8 88 0. *)
Theorem version_firmware_parse_skips_empty_components :
  (forall (a b : string) (d1 d2 : ascii) (v : list Z),
      CLib.mem_char d1 sep = true -> CLib.mem_char d2 sep = true ->
      version_firmware_parse (a ++ String d1 (String d2 b)) v
      = version_firmware_parse (a ++ String d1 b) v)
  /\ (forall (s : string) (v : list Z),
        version_firmware_parse s v
        = parse_tokens (filter nonempty (fields sep s)) 0 v)
  /\ fields sep "1..8.88.0" = ["1"; EmptyString; "8"; "88"; "0"]
  /\ (forall j0 j1 j2 j3 : Z,
        version_firmware_parse "1..8.88.0" [j0; j1; j2; j3]
        = (true, [1; 8; 88; 0]))
  /\ (forall j0 j1 j2 j3 : Z,
        version_firmware_parse
          ("1" ++ crlf ++ "8" ++ crlf ++ crlf ++ "88." ++ crlf ++ "0" ++ crlf)
          [j0; j1; j2; j3]
        = (true, [1; 8; 88; 0])).
Proof.
  split; [|split; [|split; [|split]]].
  - intros a b d1 d2 v H1 H2. rewrite !version_firmware_parse_tokens.
    rewrite tokens_delimiter_run by assumption. reflexivity.
  - intros s v. apply version_firmware_parse_tokens.
  - reflexivity.
  - intros. reflexivity.
  - intros. reflexivity.
Qed.

Lemma version_firmware_parse_skips_empty_components_witness :
  (CLib.mem_char "." sep = true /\ CLib.mem_char LF sep = true)
  /\ version_firmware_parse ("1.8" ++ String "." (String LF "88.0")) [0; 0; 0; 0]
     = version_firmware_parse ("1.8" ++ String "." "88.0") [0; 0; 0; 0].
Proof.
  split; [split; reflexivity|].
  apply (proj1 version_firmware_parse_skips_empty_components);
    reflexivity.
Defined.

(** C10. [parse_uint] reads its token with [strtoul] in base 0, so a
    hexadecimal token, an octal one and one with a minus sign are all
    accepted: ["0x1f"] is 31, ["017"] is 15 and ["-1"] wraps to 2^32 - 1;
    a version string made of such tokens parses. *)
Theorem parse_uint_accepts_hex_octal_and_minus :
  parse_uint "0x1f" = (true, 31)
  /\ parse_uint "017" = (true, 15)
  /\ parse_uint "-1" = (true, 2 ^ 32 - 1)
  /\ (forall j0 j1 j2 j3 : Z,
        version_firmware_parse "0x1f.017.-1.0" [j0; j1; j2; j3]
        = (true, [31; 15; 4294967295; 0])).
Proof.
  split; [|split; [|split]]; reflexivity.
Qed.

(** ** The daemon flags and the maintenance gate *)

Section Control.

Context {P : Platform}.

Lemma logged_logged (s : State) (es fs : list event) :
  logged (logged s es) fs = logged s (es ++ fs).
Proof. unfold logged. simpl. rewrite app_assoc. reflexivity. Qed.

Lemma maintenance_allowed_run (s : State) :
  maintenance_allowed s
  = (negb (daemon_running s),
     if daemon_running s then logged s [refusal] else s).
Proof.
  destruct s as [should running w l].
  unfold maintenance_allowed, bind, get_running, eprintf, emit, ret, logged.
  simpl. destruct running; reflexivity.
Qed.

Lemma argc_at (name tty cmd : string) (cmds : list string) :
  let argc := Z.of_nat (List.length (name :: "at" :: tty :: cmd :: cmds)) in
  (argc <? 2) = false /\ (argc =? 3) = false /\ (argc =? 2) = false
  /\ (3 <? argc) = true.
Proof.
  cbn [List.length]. repeat split; bool_to_prop; lia.
Qed.

(** C7. [maintenance_allowed] is true exactly when [daemon_running] is
    false, whatever [daemon_should_run] is; and while [daemon_running] is
    true the [mode], [at] and [firmware-version] commands are refused with
    status 1 and "Stop the daemon first." before any collaborator is
    called: the flags and the world are as they were. *)
Theorem maintenance_allowed_iff_not_running :
  forall s : State,
    (fst (maintenance_allowed s) = true <-> daemon_running s = false)
    /\ (forall b : bool,
          fst (maintenance_allowed
                 (mkState b (daemon_running s) (world s) (log s)))
          = fst (maintenance_allowed s))
    /\ (daemon_running s = true ->
        fst (maintenance_allowed s) = false
        /\ (forall name m, main [name; "mode"; m] s = (1, logged s [refusal]))
        /\ (forall name tty cmd cmds,
              main (name :: "at" :: tty :: cmd :: cmds) s
              = (1, logged s [refusal]))
        /\ (forall name tty,
              main [name; "firmware-version"; tty] s = (1, logged s [refusal]))
        /\ (forall name tty x,
              main [name; "firmware-version"; tty; x] s
              = (1, logged s [refusal]))).
Proof.
  intros s. split; [|split].
  - rewrite maintenance_allowed_run. simpl.
    destruct (daemon_running s); simpl; split; congruence.
  - intros b. rewrite !maintenance_allowed_run. reflexivity.
  - intros Hrun. split; [|split; [|split; [|split]]].
    + rewrite maintenance_allowed_run. simpl. rewrite Hrun. reflexivity.
    + intros name m. unfold main. cbn [List.length nth Z.of_nat].
      simpl. unfold bind. rewrite maintenance_allowed_run, Hrun. reflexivity.
    + intros name tty cmd cmds. unfold main.
      destruct (argc_at name tty cmd cmds) as (A1 & A2 & A3 & A4).
      cbv zeta in A1, A2, A3, A4. rewrite A1, A2, A3, A4.
      cbn [nth andb streq String.eqb Ascii.eqb Bool.eqb].
      unfold and_then, bind. rewrite maintenance_allowed_run, Hrun. reflexivity.
    + intros name tty. unfold main. cbn [List.length nth Z.of_nat].
      simpl. unfold and_then, bind.
      rewrite maintenance_allowed_run, Hrun. reflexivity.
    + intros name tty x. unfold main. cbn [List.length nth Z.of_nat].
      simpl. unfold and_then, bind.
      rewrite maintenance_allowed_run, Hrun. reflexivity.
Qed.

(** The [start] command, in full: refused while the daemon runs; otherwise
    the request flag is raised, then the scheduler is called with the task
    name and the device path, and its failure is reported with [perror]
    and status -1. *)
Lemma main_start_run (name path : string) (s : State) :
  main [name; "start"; path] s
  = if daemon_running s then
      (1, logged s [Print stderr (name ++ " is already running." ++ nl)])
    else
      let (r, w) := task_spawn_cmd name [path] (world s) in
      (if r =? -1 then -1 else 0,
       mkState true false w
         (log s ++ Task_spawn name [path] r
              :: (if r =? -1 then [Perror "task_spawn_cmd" (errno w)]
                  else []))%list).
Proof.
  destruct s as [should running w l].
  unfold main. cbn [List.length nth Z.of_nat]. simpl.
  unfold bind, get_running, eprintf, emit, ret, logged, set_should_run, sys,
    perror, get_errno.
  simpl. destruct running; simpl; [reflexivity|].
  destruct (task_spawn_cmd name [path] w) as [r w'] eqn:Hspawn. simpl.
  destruct (r =? -1); simpl; rewrite <- ?app_assoc; reflexivity.
Qed.

(** C5, as the code has it. [start] is refused with status 1 and
    "already running" while [daemon_running] is true, and then nothing is
    spawned and nothing changes but the message printed. Otherwise
    [daemon_should_run] is set and the task is spawned with the device
    path; when the spawn fails, its [errno] is reported through [perror],
    the status is -1, [daemon_running] is still false and
    [daemon_should_run] stays set. *)
Theorem start_rejected_or_spawned :
  forall (name path : string) (s : State),
    (daemon_running s = true ->
     main [name; "start"; path] s
     = (1, logged s [Print stderr (name ++ " is already running." ++ nl)]))
    /\ (daemon_running s = false ->
        forall r w, task_spawn_cmd name [path] (world s) = (r, w) ->
        let (status, s') := main [name; "start"; path] s in
        daemon_should_run s' = true
        /\ daemon_running s' = false
        /\ world s' = w
        /\ (r <> -1 ->
            status = 0
            /\ log s' = (log s ++ [Task_spawn name [path] r])%list)
        /\ (r = -1 ->
            status = -1
            /\ log s' = (log s ++ [Task_spawn name [path] (-1);
                                   Perror "task_spawn_cmd" (errno w)])%list)).
Proof.
  intros name path s. rewrite main_start_run. split.
  - intros Hrun. rewrite Hrun. reflexivity.
  - intros Hrun r w Hspawn. rewrite Hrun, Hspawn. simpl.
    split; [reflexivity|]. split; [reflexivity|]. split; [reflexivity|].
    split.
    + intros Hr. apply Z.eqb_neq in Hr. rewrite Hr. split; reflexivity.
    + intros ->. split; reflexivity.
Qed.

End Control.

(** ** Acquiring the serial device *)

Section Serial.

Context {P : Platform}.

Ltac run_monad :=
  unfold and_then, bind, ret, sys_, sys, emit, printf, eprintf, perror,
    get_errno, set_errno, get_running, get_should_run, set_running,
    set_should_run, destroy, close, logged;
  simpl.

(** C6. When the device opens but setting the speed or the flow control
    fails, [open_serial] closes the descriptor (the close is in the trace,
    the handle returned is the closed one) and the caller finds in [errno]
    what the failing step left there, though [dbg_perror] and [close] ran
    after it and may have changed it; the flags are untouched. *)
Theorem open_serial_failure_preserves_errno :
  forall (name : string) (s : State) (fd : Z) (w1 w2 w3 : World OS)
         (ok1 ok2 : bool),
    tty_open name (world s) = (fd, w1) ->
    fd <> -1 ->
    tty_set_speed fd B9600 w1 = (ok1, w2) ->
    tty_use_ctsrts fd w2 = (ok2, w3) ->
    ok1 && ok2 = false ->
    let failed := if ok1 then w3 else w2 in
    let (d, s') := open_serial name s in
    fileno d = -1
    /\ errno (world s') = errno failed
    /\ os (world s') = os (sys_close fd (dbg_perror name failed))
    /\ (exists steps, log s' = (log s ++ steps ++ [Close fd])%list
                      /\ ~ In (Close fd) steps)
    /\ daemon_should_run s' = daemon_should_run s
    /\ daemon_running s' = daemon_running s.
Proof.
  intros name s fd w1 w2 w3 ok1 ok2 Hopen Hfd Hspeed Hcts Hfail.
  destruct s as [should running w l]. simpl in Hopen.
  apply Z.eqb_neq in Hfd.
  unfold open_serial. run_monad. rewrite Hopen. simpl. rewrite ?Hfd. simpl.
  rewrite Hspeed. simpl.
  destruct ok1; simpl in Hfail |- *.
  - subst ok2. rewrite Hcts. simpl. rewrite ?Hfd. simpl.
    repeat split.
    exists [Tty_open name fd; Tty_set_speed fd B9600 true;
            Tty_use_ctsrts fd false].
    split.
    + rewrite <- !app_assoc. reflexivity.
    + simpl. intros [H|[H|[H|[]]]]; discriminate.
  - rewrite ?Hfd. simpl. repeat split.
    exists [Tty_open name fd; Tty_set_speed fd B9600 false].
    split.
    + rewrite <- !app_assoc. reflexivity.
    + simpl. intros [H|[H|[]]]; discriminate.
Qed.

(** When [open_serial] gives an open handle, the flags are as before. *)
Lemma open_serial_flags (name : string) (s : State) :
  daemon_should_run (snd (open_serial name s)) = daemon_should_run s
  /\ daemon_running (snd (open_serial name s)) = daemon_running s.
Proof.
  destruct s as [should running w l].
  unfold open_serial. run_monad.
  destruct (tty_open name w) as [fd w1]. simpl.
  destruct (fd =? -1) eqn:Hfd; simpl.
  - rewrite ?Hfd. simpl. split; reflexivity.
  - destruct (tty_set_speed fd B9600 w1) as [ok1 w2]. simpl.
    destruct ok1; simpl.
    + destruct (tty_use_ctsrts fd w2) as [ok2 w3]. simpl.
      destruct ok2; simpl; [split; reflexivity|].
      rewrite ?Hfd. simpl. split; reflexivity.
    + rewrite ?Hfd. simpl. split; reflexivity.
Qed.

(** [open_serial] in one equation, by the step that fails. The world of a
    failure is that of the cleanup, with the [errno] of the failing step. *)
Lemma open_serial_run (name : string) (s : State) :
  open_serial name s
  = let (fd, w1) := tty_open name (world s) in
    let cleaned w := mkWorld (os (sys_close fd (dbg_perror name w))) (errno w) in
    if fd =? -1 then
      (mk_unique_file (-1),
       with_world s (mkWorld (os (dbg_perror name w1)) (errno w1))
         [Tty_open name fd])
    else
      let (ok1, w2) := tty_set_speed fd B9600 w1 in
      if ok1 then
        let (ok2, w3) := tty_use_ctsrts fd w2 in
        if ok2 then
          (mk_unique_file fd,
           with_world s w3 [Tty_open name fd; Tty_set_speed fd B9600 true;
                            Tty_use_ctsrts fd true])
        else
          (mk_unique_file (-1),
           with_world s (cleaned w3)
             [Tty_open name fd; Tty_set_speed fd B9600 true;
              Tty_use_ctsrts fd false; Close fd])
      else
        (mk_unique_file (-1),
         with_world s (cleaned w2)
           [Tty_open name fd; Tty_set_speed fd B9600 false; Close fd]).
Proof.
  destruct s as [should running w l].
  unfold open_serial, with_world, and_then, bind, ret, sys_, sys, emit,
    get_errno, set_errno, close.
  simpl. destruct (tty_open name w) as [fd w1]. simpl.
  destruct (fd =? -1) eqn:Hfd; simpl.
  - apply Z.eqb_eq in Hfd. subst fd. reflexivity.
  - destruct (tty_set_speed fd B9600 w1) as [ok1 w2]. simpl.
    destruct ok1; simpl.
    + destruct (tty_use_ctsrts fd w2) as [ok2 w3]. simpl.
      destruct ok2; simpl; rewrite ?Hfd; simpl; rewrite <- ?app_assoc;
        reflexivity.
    + rewrite ?Hfd. simpl. rewrite <- ?app_assoc. reflexivity.
Qed.

(** What [open_serial] adds to the trace: events, and after it returns an
    open handle, the open block of its descriptor and nothing else. *)
Lemma open_serial_log (name : string) (s : State) :
  (exists es, log (snd (open_serial name s)) = (log s ++ es)%list)
  /\ (fileno (fst (open_serial name s)) <> -1 ->
      log (snd (open_serial name s))
      = (log s ++ open_block name (fileno (fst (open_serial name s))))%list).
Proof.
  rewrite open_serial_run.
  destruct (tty_open name (world s)) as [fd w1].
  destruct (fd =? -1).
  - simpl. split; [eexists; reflexivity | intros H; contradiction].
  - destruct (tty_set_speed fd B9600 w1) as [ok1 w2]. destruct ok1.
    + destruct (tty_use_ctsrts fd w2) as [ok2 w3]. destruct ok2; simpl.
      * split; [eexists; reflexivity | intros _; reflexivity].
      * split; [eexists; reflexivity | intros H; contradiction].
    + simpl. split; [eexists; reflexivity | intros H; contradiction].
Qed.

End Serial.

(** ** The AT command batch *)

Section Batch.

Context {P : Platform}.

(** The loop runs the commands in order and stops after the first that
    returns -1; [rs] are the results of the commands that ran. *)
Lemma exec_all_AT_loop_trace (fd size : Z) (arg : list string) :
  forall (i : Z) (buf : string) (s : State),
  exists rs : list Z,
    let r := exec_all_AT_loop fd i arg buf size s in
    (List.length rs <= List.length arg)%nat
    /\ log (snd r) = (log s ++ batch_trace fd i (combine arg rs))%list
    /\ daemon_should_run (snd r) = daemon_should_run s
    /\ daemon_running (snd r) = daemon_running s
    /\ (forall k, (S k < List.length rs)%nat -> succeeded (nth k rs 0))
    /\ (fst (fst r) = true
        <-> List.length rs = List.length arg /\ Forall succeeded rs)
    /\ (fst (fst r) = false
        <-> exists k, List.length rs = S k /\ nth k rs 0 = -1).
Proof.
  induction arg as [|a arg IH]; intros i buf s.
  - exists []. simpl. rewrite app_nil_r.
    repeat split; try reflexivity; try (intros; lia); try constructor.
    intros (k & Hk & _); discriminate.
  - destruct s as [should running w l].
    cbn [exec_all_AT_loop].
    unfold bind, printf, emit, sys. simpl.
    destruct (exec_AT_verbose fd a buf size w) as [[r buf'] w'] eqn:Hexec.
    simpl. destruct (r =? -1) eqn:Hr.
    + apply Z.eqb_eq in Hr. subst r. exists [-1]. unfold ret. simpl.
      rewrite <- app_assoc. simpl.
      rewrite combine_nil.
      repeat split; try reflexivity; try (intros; lia).
      * intros [_ H]. inversion H; subst. exfalso. apply H2. reflexivity.
      * intros _. exists O. split; reflexivity.
    + apply Z.eqb_neq in Hr.
      destruct (IH (i + 1) buf'
                  (mkState should running w'
                     ((l ++ [Print stdout (dec i ++ "# ")])
                        ++ [Exec_AT fd a r])%list))
        as (rs & Hlen & Hlog & Hs & Hrun & Hmid & Htrue & Hfalse).
      exists (r :: rs). cbv zeta in *. simpl in *.
      split; [lia|]. split.
      { rewrite Hlog. rewrite <- !app_assoc. reflexivity. }
      split; [exact Hs|]. split; [exact Hrun|]. split; [|split].
      * intros [|k] Hk; [exact Hr | apply Hmid; lia].
      * rewrite Htrue. split.
        -- intros [Hl Hall]. split; [lia | constructor; assumption].
        -- intros [Hl Hall]. inversion Hall; subst. split; [lia | assumption].
      * rewrite Hfalse. split.
        -- intros (k & Hk & Hn). exists (S k). split; [lia | exact Hn].
        -- intros ([|k] & Hk & Hn); [contradiction|].
           exists k. split; [lia | exact Hn].
Qed.

(** Without the device there is no batch: while the daemon runs the call
    is refused before the device is touched. *)
Lemma exec_all_AT_refused (devname : string) (arg : list string)
    (buf : string) (size : Z) (s : State) :
  daemon_running s = true ->
  exec_all_AT devname arg buf size s = ((false, buf), logged s [refusal]).
Proof.
  intros Hrun. unfold exec_all_AT, bind.
  rewrite maintenance_allowed_run, Hrun. reflexivity.
Qed.

(** The first failure cuts the answers: what ran is a prefix of them, all
    but the last of it succeeded, nothing failed exactly when all of it
    ran, and otherwise its last is the first failure. *)
Lemma upto_failure_spec {W : Type} (outs : list (Z * string * W)) :
  let ran := upto_failure outs in
  let ok := forallb (fun o => negb (result o =? -1)) outs in
  ran = firstn (List.length ran) outs
  /\ (forall k, (S k < List.length ran)%nat ->
        succeeded (nth k (map result outs) 0))
  /\ (ok = true
      <-> List.length ran = List.length outs
          /\ Forall succeeded (map result outs))
  /\ (ok = false
      <-> exists k, List.length ran = S k /\ nth k (map result outs) 0 = -1).
Proof.
  induction outs as [|o outs IH]; cbv zeta in *.
  - simpl. split; [reflexivity|]. split; [intros; lia|]. split.
    + split; [intros _; split; [reflexivity | constructor] | reflexivity].
    + split; [discriminate | intros (k & Hk & _); discriminate].
  - destruct IH as (Hpre & Hmid & Htrue & Hfalse).
    cbn [upto_failure forallb map].
    destruct (result o =? -1) eqn:Hr.
    + apply Z.eqb_eq in Hr. simpl. split; [reflexivity|].
      split; [intros; lia|]. split.
      * split; [discriminate|]. intros [_ H]. inversion H; subst.
        contradiction.
      * split; [|reflexivity]. intros _. exists O. split; [reflexivity | exact Hr].
    + apply Z.eqb_neq in Hr. cbn [negb andb List.length firstn].
      split; [f_equal; exact Hpre|]. split; [|split].
      * intros [|k] Hk; [exact Hr | apply Hmid; lia].
      * rewrite Htrue. split.
        -- intros [Hl Hall]. split; [lia | constructor; assumption].
        -- intros [Hl Hall]. inversion Hall; subst. split; [lia | assumption].
      * rewrite Hfalse. split.
        -- intros (k & Hk & Hn). exists (S k). split; [lia | exact Hn].
        -- intros ([|k] & Hk & Hn); [contradiction|].
           exists k. split; [lia | exact Hn].
Qed.

Lemma answers_length (fd size : Z) (arg : list string) :
  forall (buf : string) (w : World OS),
    List.length (answers fd size arg buf w) = List.length arg.
Proof.
  induction arg as [|a arg IH]; intros buf w; [reflexivity|].
  cbn [answers]. destruct (exec_AT_verbose fd a buf size w) as [[r buf'] w'].
  cbn [List.length]. rewrite IH. reflexivity.
Qed.

(** The loop in one equation: it sends the commands to the device up to
    the first failure, and leaves the buffer and the world of the last
    command that ran. *)
Lemma exec_all_AT_loop_run (fd size : Z) (arg : list string) :
  forall (i : Z) (buf : string) (s : State),
    let outs := answers fd size arg buf (world s) in
    let ran := upto_failure outs in
    exec_all_AT_loop fd i arg buf size s
    = ((forallb (fun o => negb (result o =? -1)) outs,
        fst (left_by ran buf (world s))),
       with_world s (snd (left_by ran buf (world s)))
         (batch_trace fd i (combine arg (map result ran)))).
Proof.
  induction arg as [|a arg IH]; intros i buf s; cbv zeta in *.
  - destruct s as [should running w l]. unfold with_world. simpl.
    rewrite app_nil_r. reflexivity.
  - destruct s as [should running w l].
    cbn [exec_all_AT_loop answers world].
    unfold bind, printf, emit, sys. cbn [world log daemon_running daemon_should_run].
    destruct (exec_AT_verbose fd a buf size w) as [[r buf'] w'].
    cbn [upto_failure forallb result fst snd].
    destruct (r =? -1) eqn:Hr.
    + unfold ret, with_world. simpl. rewrite combine_nil.
      rewrite <- app_assoc. reflexivity.
    + rewrite IH. unfold with_world. simpl. rewrite <- !app_assoc. reflexivity.
Qed.

(** C4. Once the device is acquired (the daemon is not running and
    [open_serial] gives an open handle), [exec_all_AT] is the fail-fast
    batch on the device. Let [outs] be what the modem answers to the
    commands sent in order, each on the buffer and the world the one
    before left, and [ran] these answers up to the first failure. The call
    returns true exactly when no answer is -1; it leaves the buffer and the
    world of the last command that ran, then closes the handle; its trace
    after the opening is each command that ran, once, in order, after its
    0-based index and with the result the modem gave, then the close. What
    ran is a prefix of the answers, all of it but the last succeeded, and
    on a failure its last command is the first that failed: no command
    after it is sent and none is sent twice. *)
Theorem exec_all_AT_fail_fast :
  forall (devname : string) (arg : list string) (buf : string) (size : Z)
         (s s1 : State) (d : unique_file),
    daemon_running s = false ->
    open_serial devname s = (d, s1) ->
    fileno d <> -1 ->
    let outs := answers (fileno d) size arg buf (world s1) in
    let ran := upto_failure outs in
    let ok := forallb (fun o => negb (result o =? -1)) outs in
    exec_all_AT devname arg buf size s
    = ((ok, fst (left_by ran buf (world s1))),
       mkState (daemon_should_run s) (daemon_running s)
         (sys_close (fileno d) (snd (left_by ran buf (world s1))))
         (log s1 ++ batch_trace (fileno d) 0 (combine arg (map result ran))
                 ++ [Close (fileno d)]))
    /\ List.length outs = List.length arg
    /\ ran = firstn (List.length ran) outs
    /\ (forall k, (S k < List.length ran)%nat ->
          succeeded (nth k (map result outs) 0))
    /\ (ok = true
        <-> List.length ran = List.length arg
            /\ Forall succeeded (map result outs))
    /\ (ok = false
        <-> exists k, List.length ran = S k
                      /\ nth k (map result outs) 0 = -1).
Proof.
  intros devname arg buf size s s1 d Hrun Hopen Hfd outs ran ok.
  pose proof (upto_failure_spec outs) as (Hpre & Hmid & Htrue & Hfalse).
  pose proof (answers_length (fileno d) size arg buf (world s1)) as Hlen.
  fold outs in Hlen. fold ran ok in Hpre, Hmid, Htrue, Hfalse.
  rewrite Hlen in Htrue.
  split; [|split; [exact Hlen|split; [exact Hpre|split; [exact Hmid|split;
    assumption]]]].
  pose proof (open_serial_flags devname s) as [Hs1 Hr1].
  rewrite Hopen in Hs1, Hr1. cbn [snd] in Hs1, Hr1.
  unfold exec_all_AT, bind. rewrite maintenance_allowed_run, Hrun.
  cbn [negb]. rewrite Hopen. apply Z.eqb_neq in Hfd. rewrite Hfd.
  rewrite exec_all_AT_loop_run. fold outs ran ok.
  unfold destroy, close, bind, sys_, sys, emit, ret, with_world.
  rewrite Hfd. cbn [world log daemon_running daemon_should_run fst snd].
  rewrite Hs1, Hr1, Hrun, <- app_assoc. reflexivity.
Qed.

End Batch.

(** ** The firmware version gate *)

Lemma prefix_app (n t : string) :
  String.prefix n t = true -> exists b, t = n ++ b.
Proof.
  revert t. induction n as [|a n IH]; intros t H.
  - exists t. reflexivity.
  - destruct t as [|b t]; simpl in H; [discriminate|].
    destruct (Ascii.ascii_dec a b) as [->|]; [|discriminate].
    destruct (IH t H) as (r & ->). exists r. reflexivity.
Qed.

(** [strstr] finds the needle if the haystack contains it. *)
Lemma strstr_found (hay needle t : string) :
  CLib.strstr hay needle = Some t -> contains hay needle.
Proof.
  induction hay as [|c hay IH].
  - cbn [CLib.strstr].
    destruct (String.prefix needle EmptyString) eqn:Hp; [|discriminate].
    intros _. destruct (prefix_app _ _ Hp) as (b & Hb).
    exists EmptyString, b. exact Hb.
  - cbn [CLib.strstr].
    destruct (String.prefix needle (String c hay)) eqn:Hp.
    + intros _. destruct (prefix_app _ _ Hp) as (b & Hb).
      exists EmptyString, b. exact Hb.
    + intros H. destruct (IH H) as (a & b & ->).
      exists (String c a), b. reflexivity.
Qed.

Lemma strstr_absent (hay needle : string) :
  ~ contains hay needle -> CLib.strstr hay needle = None.
Proof.
  intros H. destruct (CLib.strstr hay needle) as [t|] eqn:Hs; [|reflexivity].
  exfalso. apply H. exact (strstr_found _ _ _ Hs).
Qed.

Section Gate.

Context {P : Platform}.

(** The check in one equation: the query, then the search for the prefix,
    then the parse with the two version lines, then the verdict. *)
Lemma version_firmware_check_run (devname : string) (s : State) :
  version_firmware_check devname s
  = let '((ok, buf), s1) := exec_all_AT devname at_i_3 EmptyString 32 s in
    if ok then
      match CLib.strstr buf prefix with
      | None => (false, s1)
      | Some t =>
          let (parsed, v4) :=
            version_firmware_parse (CLib.drop (CLib.strlen prefix) t)
              v4_uninitialised in
          let s2 := logged s1 [required_line; version_line (show4 v4)] in
          if parsed then
            if version_firmware_compare_le BL600_VERSION_FIRMWARE_MIN v4
            then (true, logged s2 [ready_line])
            else (false, logged s2 [upgrade_line])
          else (false, s2)
      end
    else (false, s1).
Proof.
  unfold version_firmware_check, bind.
  destruct (exec_all_AT devname at_i_3 EmptyString 32 s) as [[ok buf] s1].
  destruct ok; [|reflexivity].
  destruct (CLib.strstr buf prefix) as [t|]; [|reflexivity].
  destruct (version_firmware_parse _ v4_uninitialised) as [parsed v4].
  destruct s1 as [should running w l].
  unfold printf, emit, ret, logged, required_line, version_line, ready_line,
    upgrade_line.
  destruct parsed.
  - destruct (version_firmware_compare_le BL600_VERSION_FIRMWARE_MIN v4);
      cbn [log world daemon_running daemon_should_run];
      rewrite <- !app_assoc; reflexivity.
  - cbn [log world daemon_running daemon_should_run].
    rewrite <- !app_assoc. reflexivity.
Qed.

Lemma v4_uninitialised_eq :
  v4_uninitialised
  = [u32 (stack_junk 0); u32 (stack_junk 1); u32 (stack_junk 2);
     u32 (stack_junk 3)].
Proof. reflexivity. Qed.

(** C3. [version_firmware_check] goes through its stages in order. If the
    query fails nothing more happens. If it answers [buf]: without the
    prefix in [buf] the check fails and prints nothing, neither the
    versions nor a verdict; with ["1.8.88.0"] and CR LF after the prefix
    it prints both versions as 1 8 88 0 and "ready to work." and passes;
    with ["1.8.87.0"] it prints "upgrade required." and fails; with
    ["1.8.x.0"] it prints the versions and fails with no verdict. *)
Theorem version_firmware_check_stages :
  forall (devname : string) (s s1 : State) (ok : bool) (buf : string),
    exec_all_AT devname at_i_3 EmptyString 32 s = ((ok, buf), s1) ->
    (ok = false -> version_firmware_check devname s = (false, s1))
    /\ (ok = true -> ~ contains buf prefix ->
        version_firmware_check devname s = (false, s1))
    /\ (ok = true -> buf = prefix ++ "1.8.88.0" ++ crlf ->
        version_firmware_check devname s
        = (true, logged s1 [required_line; version_line "1 8 88 0";
                            ready_line]))
    /\ (ok = true -> buf = prefix ++ "1.8.87.0" ->
        version_firmware_check devname s
        = (false, logged s1 [required_line; version_line "1 8 87 0";
                             upgrade_line]))
    /\ (ok = true -> buf = prefix ++ "1.8.x.0" ->
        version_firmware_check devname s
        = (false,
           logged s1 [required_line;
                      version_line ("1 8 0 " ++ dec (u32 (stack_junk 3)))])).
Proof.
  intros devname s s1 ok buf Hexec.
  rewrite version_firmware_check_run, Hexec, v4_uninitialised_eq.
  split; [|split; [|split; [|split]]].
  - intros ->. reflexivity.
  - intros -> Habsent. rewrite (strstr_absent _ _ Habsent). reflexivity.
  - intros -> ->.
    change (CLib.strstr (prefix ++ "1.8.88.0" ++ crlf) prefix)
      with (Some (prefix ++ "1.8.88.0" ++ crlf)).
    cbv beta iota.
    change (CLib.drop (CLib.strlen prefix) (prefix ++ "1.8.88.0" ++ crlf))
      with ("1.8.88.0" ++ crlf).
    change (version_firmware_parse ("1.8.88.0" ++ crlf) _)
      with (true, [1; 8; 88; 0]).
    cbv beta iota zeta.
    change (version_firmware_compare_le _ _) with true.
    cbv iota. rewrite logged_logged. reflexivity.
  - intros -> ->.
    change (CLib.strstr (prefix ++ "1.8.87.0") prefix)
      with (Some (prefix ++ "1.8.87.0")).
    cbv beta iota.
    change (CLib.drop (CLib.strlen prefix) (prefix ++ "1.8.87.0"))
      with "1.8.87.0".
    change (version_firmware_parse "1.8.87.0" _) with (true, [1; 8; 87; 0]).
    cbv beta iota zeta.
    change (version_firmware_compare_le _ _) with false.
    cbv iota. rewrite logged_logged. reflexivity.
  - intros -> ->.
    change (CLib.strstr (prefix ++ "1.8.x.0") prefix)
      with (Some (prefix ++ "1.8.x.0")).
    cbv beta iota.
    change (CLib.drop (CLib.strlen prefix) (prefix ++ "1.8.x.0"))
      with "1.8.x.0".
    change (version_firmware_parse "1.8.x.0" _)
      with (false, [1; 8; 0; u32 (stack_junk 3)]).
    cbv beta iota zeta. reflexivity.
Qed.

End Gate.

(** ** The daemon task *)

Section Task.

Context {P : Platform}.

Variables name path : string.

Lemma daemon_step_entry (s : State) :
  daemon_step name path (mk_cfg D_entry s)
  = Some (mk_cfg
            (D_opened (fst (open_serial path (logged s [starting_line name]))))
            (snd (open_serial path (logged s [starting_line name])))).
Proof.
  unfold daemon_step. cbn [pc st]. unfold bind, eprintf, emit.
  fold (starting_line name). fold (logged s [starting_line name]).
  destruct (open_serial path (logged s [starting_line name])) as [d s'].
  reflexivity.
Qed.

Lemma daemon_step_open_failed (d : unique_file) (s : State) :
  fileno d = -1 ->
  daemon_step name path (mk_cfg (D_opened d) s)
  = Some (mk_cfg (D_returned 1) (logged s [Perror name (errno (world s))])).
Proof.
  intros Hd. unfold daemon_step. cbn [pc st]. rewrite Hd.
  unfold perror, destroy, close, bind, get_errno, emit, ret, logged.
  rewrite Hd. reflexivity.
Qed.

Lemma daemon_step_started (d : unique_file) (s : State) :
  fileno d <> -1 ->
  daemon_step name path (mk_cfg (D_opened d) s)
  = Some (mk_cfg (D_loop d)
            (mkState (daemon_should_run s) true (world s)
               (log s ++ [Print stderr (name ++ " started." ++ nl)]))).
Proof.
  intros Hd. apply Z.eqb_neq in Hd.
  unfold daemon_step. cbn [pc st]. rewrite Hd. reflexivity.
Qed.

Lemma daemon_step_loop (d : unique_file) (s : State) :
  daemon_should_run s = true ->
  daemon_step name path (mk_cfg (D_loop d) s)
  = Some (mk_cfg (D_loop d)
            (mkState true (daemon_running s)
               (process_one_command (fileno d) (world s))
               (log s ++ [Process_one (fileno d)]))).
Proof.
  intros Hs. unfold daemon_step. cbn [pc st]. rewrite Hs.
  unfold bind, sys_, sys, emit. simpl. rewrite Hs. reflexivity.
Qed.

Lemma daemon_step_stop (d : unique_file) (s : State) :
  fileno d <> -1 ->
  daemon_should_run s = false ->
  daemon_step name path (mk_cfg (D_loop d) s)
  = Some (mk_cfg (D_returned 0)
            (mkState false false (sys_close (fileno d) (world s))
               (log s ++ [Print stderr (name ++ " stopped." ++ nl);
                          Close (fileno d)]))).
Proof.
  intros Hd Hs. apply Z.eqb_neq in Hd.
  unfold daemon_step. cbn [pc st]. rewrite Hs.
  unfold bind, eprintf, set_running, destroy, close, sys_, sys, emit, ret.
  rewrite Hd. simpl. rewrite Hs, <- app_assoc. reflexivity.
Qed.

Lemma daemon_steps_run (n : nat) :
  forall c c', daemon_steps name path n c = Some c' -> daemon_run name path c c'.
Proof.
  induction n as [|n IH]; intros c c' H; simpl in H.
  - inversion H; subst. apply run_here.
  - destruct (daemon_steps name path n c) as [c1|] eqn:Hn; [|discriminate].
    eapply run_task; [apply IH; exact Hn | exact H].
Qed.

Lemma device_opened_later (fd : Z) (l0 l : list event) (es : list event) :
  device_opened name path fd l0 l ->
  device_opened name path fd l0 (l ++ es).
Proof.
  intros (before & after & ->). exists before, (after ++ es)%list.
  rewrite <- !app_assoc. cbn [app]. rewrite <- !app_assoc. reflexivity.
Qed.

Lemma daemon_invariant_run (s0 : State) (c : daemon_cfg) :
  daemon_run name path (mk_cfg D_entry s0) c ->
  daemon_invariant name path s0 c.
Proof.
  intros Hrun. remember (mk_cfg D_entry s0) as c0 eqn:Hc0.
  induction Hrun as [c | c c1 c2 Hrun IH Hstep | c c1 s' Hrun IH Henv].
  - subst c. unfold daemon_invariant. cbn [pc st].
    split; [reflexivity | exists []; rewrite app_nil_r; reflexivity].
  - specialize (IH Hc0). destruct c1 as [pc1 s1].
    unfold daemon_invariant in IH |- *. cbn [pc st] in IH.
    destruct pc1 as [|d|d|status].
    + destruct IH as [Hflag (es & Hlog)].
      rewrite daemon_step_entry in Hstep. inversion Hstep; subst c2.
      cbn [pc st].
      pose proof (open_serial_flags path (logged s1 [starting_line name]))
        as [_ Hr].
      pose proof (open_serial_log path (logged s1 [starting_line name]))
        as [(es' & Hext) Hopen].
      cbn [logged log daemon_running] in Hr, Hext, Hopen.
      split; [congruence|]. split.
      * exists (es ++ starting_line name :: es')%list.
        rewrite Hext, Hlog, <- !app_assoc. reflexivity.
      * intros Hd. exists es, []. rewrite (Hopen Hd), Hlog, app_nil_r.
        rewrite <- !app_assoc. reflexivity.
    + destruct IH as (Hflag & Hext & Hopened).
      destruct (Z.eq_dec (fileno d) (-1)) as [Hd|Hd].
      * rewrite (daemon_step_open_failed d s1 Hd) in Hstep.
        inversion Hstep; subst c2. cbn [pc st]. left.
        split; [reflexivity | exact Hflag].
      * rewrite (daemon_step_started d s1 Hd) in Hstep.
        inversion Hstep; subst c2. cbn [pc st log daemon_running].
        split; [exact Hd|]. split; [reflexivity|].
        apply device_opened_later. exact (Hopened Hd).
    + destruct IH as (Hd & Hflag & Hopened).
      destruct (daemon_should_run s1) eqn:Hshould.
      * rewrite (daemon_step_loop d s1 Hshould) in Hstep.
        inversion Hstep; subst c2. cbn [pc st log daemon_running].
        split; [exact Hd|]. split; [exact Hflag|].
        apply device_opened_later. exact Hopened.
      * rewrite (daemon_step_stop d s1 Hd Hshould) in Hstep.
        inversion Hstep; subst c2. cbn [pc st log daemon_running]. right.
        split; [reflexivity|]. split; [reflexivity|].
        exists (fileno d). split; [exact Hd|].
        apply device_opened_later. exact Hopened.
    + discriminate Hstep.
  - specialize (IH Hc0). destruct Henv as [Hflag (es & Hlog)].
    unfold daemon_invariant in IH |- *. cbn [pc st].
    destruct (pc c1) as [|d|d|status]; rewrite Hflag, Hlog.
    + destruct IH as [H (es0 & He)]. split; [exact H|].
      exists (es0 ++ es)%list. rewrite He, app_assoc. reflexivity.
    + destruct IH as (H & (es0 & He) & Ho). split; [exact H|]. split.
      * exists (es0 ++ es)%list. rewrite He, app_assoc. reflexivity.
      * intros Hd. apply device_opened_later. exact (Ho Hd).
    + destruct IH as (Hd & H & Ho). split; [exact Hd|]. split; [exact H|].
      apply device_opened_later. exact Ho.
    + destruct IH as [H|(Hs & H & fd & Hfd & Ho)]; [left; exact H|].
      right. split; [exact Hs|]. split; [exact H|].
      exists fd. split; [exact Hfd|]. apply device_opened_later. exact Ho.
Qed.

(** C8. In every execution of the daemon task from a state [s0], with the
    foreground free to act between its steps: [daemon_running] is what it
    was in [s0] (the task has not written it) until [open_serial] has
    returned, and still after a return with status 1; the task is in its
    loop only with an open handle whose descriptor this very execution
    opened and configured (the trace since [s0] holds the task's first
    line followed by the successful open, speed and flow control of that
    descriptor), and [daemon_running] is then true; after a return with
    status 0 it is false. Each step is given in full: the entry step is
    [open_serial] on the path after the first line; a closed handle is
    reported with [perror] and ends the task with status 1, the flags
    unwritten; an open one makes the task set [daemon_running] and enter
    the loop; there it calls [process_one_command] on its descriptor while
    [daemon_should_run] is true, and once it is false it clears
    [daemon_running], closes the handle and returns 0. *)
Theorem daemon_running_only_while_device_held :
  forall (s0 : State) (c : daemon_cfg),
    daemon_run name path (mk_cfg D_entry s0) c ->
    match pc c with
    | D_entry =>
        daemon_running (st c) = daemon_running s0
        /\ exists es, log (st c) = (log s0 ++ es)%list
    | D_opened d =>
        daemon_running (st c) = daemon_running s0
        /\ (exists es, log (st c) = (log s0 ++ es)%list)
        /\ (fileno d <> -1 ->
            device_opened name path (fileno d) (log s0) (log (st c)))
    | D_loop d =>
        fileno d <> -1
        /\ daemon_running (st c) = true
        /\ device_opened name path (fileno d) (log s0) (log (st c))
    | D_returned status =>
        (status = 1 /\ daemon_running (st c) = daemon_running s0)
        \/ (status = 0 /\ daemon_running (st c) = false
            /\ exists fd, fd <> -1
                  /\ device_opened name path fd (log s0) (log (st c)))
    end
    /\ daemon_step name path c
       = match pc c with
         | D_entry =>
             let r := open_serial path (logged (st c) [starting_line name]) in
             Some (mk_cfg (D_opened (fst r)) (snd r))
         | D_opened d =>
             if fileno d =? -1 then
               Some (mk_cfg (D_returned 1)
                       (logged (st c) [Perror name (errno (world (st c)))]))
             else
               Some (mk_cfg (D_loop d)
                       (mkState (daemon_should_run (st c)) true (world (st c))
                          (log (st c)
                             ++ [Print stderr (name ++ " started." ++ nl)])))
         | D_loop d =>
             if daemon_should_run (st c) then
               Some (mk_cfg (D_loop d)
                       (mkState true (daemon_running (st c))
                          (process_one_command (fileno d) (world (st c)))
                          (log (st c) ++ [Process_one (fileno d)])))
             else
               Some (mk_cfg (D_returned 0)
                       (mkState false false
                          (sys_close (fileno d) (world (st c)))
                          (log (st c)
                             ++ [Print stderr (name ++ " stopped." ++ nl);
                                 Close (fileno d)])))
         | D_returned _ => None
         end.
Proof.
  intros s0 c Hrun.
  pose proof (daemon_invariant_run s0 c Hrun) as Inv.
  unfold daemon_invariant in Inv. split; [exact Inv|].
  destruct c as [pc1 s1]. cbn [pc st] in *.
  destruct pc1 as [|d|d|status].
  - apply daemon_step_entry.
  - destruct (fileno d =? -1) eqn:Hd.
    + apply Z.eqb_eq in Hd. apply daemon_step_open_failed. exact Hd.
    + apply Z.eqb_neq in Hd. apply daemon_step_started. exact Hd.
  - destruct Inv as (Hd & _).
    destruct (daemon_should_run s1) eqn:Hshould.
    + apply daemon_step_loop. exact Hshould.
    + apply daemon_step_stop; assumption.
  - reflexivity.
Qed.

End Task.

(** ** The properties on the bench *)

Lemma version_firmware_check_stages_witness :
  let s := bench_state false false all_ok [(16, prefix ++ "1.8.88.0" ++ crlf)] in
  let s1 := snd (@exec_all_AT bench tty at_i_3 EmptyString 32 s) in
  @exec_all_AT bench tty at_i_3 EmptyString 32 s
  = ((true, prefix ++ "1.8.88.0" ++ crlf), s1)
  /\ @version_firmware_check bench tty s
     = (true, logged s1 [required_line; version_line "1 8 88 0"; ready_line]).
Proof.
  intros s s1.
  assert (Hexec : @exec_all_AT bench tty at_i_3 EmptyString 32 s
                  = ((true, prefix ++ "1.8.88.0" ++ crlf), s1))
    by (vm_compute; reflexivity).
  split; [exact Hexec|].
  destruct (@version_firmware_check_stages bench tty s s1 true _ Hexec)
    as (_ & _ & Hpass & _).
  apply Hpass; reflexivity.
Defined.

Lemma exec_all_AT_fail_fast_witness :
  let s := bench_state false false all_ok [(2, "OK"); (-1, "ER"); (2, "OK")] in
  let arg := ["AT"; "AT I 3"; "AT I 4"] in
  let s1 := snd (@open_serial bench tty s) in
  daemon_running s = false
  /\ @open_serial bench tty s = (mk_unique_file 3, s1)
  /\ fileno (mk_unique_file 3) <> -1
  /\ map result (upto_failure (answers (P := bench) 3 32 arg EmptyString
                                 (world s1)))
     = [2; -1]
  /\ fst (@exec_all_AT bench tty arg EmptyString 32 s) = (false, "ER")
  /\ log (snd (@exec_all_AT bench tty arg EmptyString 32 s))
     = (log s1 ++ [Print stdout "0# "; Exec_AT 3 "AT" 2;
                   Print stdout "1# "; Exec_AT 3 "AT I 3" (-1);
                   Close 3])%list.
Proof.
  intros s arg s1.
  assert (Hd : fileno (mk_unique_file 3) <> -1) by (simpl; discriminate).
  destruct (@exec_all_AT_fail_fast bench tty arg EmptyString 32 s s1
              (mk_unique_file 3) eq_refl eq_refl Hd) as [Hrun _].
  split; [reflexivity|]. split; [reflexivity|]. split; [exact Hd|].
  split; [reflexivity|]. rewrite Hrun. split; reflexivity.
Defined.

(** C5 as stated does not hold: here the scheduler refuses to spawn, the
    command returns -1 and reports it, and yet the pair of flags is not
    what it was: [daemon_should_run] has become true. *)
Lemma start_spawn_failure_changes_request :
  let s := bench_state false false (true, true, true, false) [] in
  let r := @main bench ["mobile"; "start"; tty] s in
  fst r = -1
  /\ log (snd r) = [Task_spawn "mobile" [tty] (-1);
                    Perror "task_spawn_cmd" ENOMEM]
  /\ (daemon_should_run (snd r), daemon_running (snd r))
     <> (daemon_should_run s, daemon_running s).
Proof.
  intros s r. split; [reflexivity|]. split; [reflexivity|].
  vm_compute. discriminate.
Qed.

Lemma start_rejected_or_spawned_witness :
  let s := bench_state false false (true, true, true, false) [] in
  let r := @main bench ["mobile"; "start"; tty] s in
  daemon_running s = false
  /\ @task_spawn_cmd bench "mobile" [tty] (world s)
     = (-1, fail_with ENOMEM (world s))
  /\ fst r = -1
  /\ daemon_should_run (snd r) = true
  /\ daemon_running (snd r) = false
  /\ log (snd r) = [Task_spawn "mobile" [tty] (-1);
                    Perror "task_spawn_cmd" ENOMEM].
Proof.
  intros s r.
  pose proof (proj2 (@start_rejected_or_spawned bench "mobile" tty s)
                eq_refl (-1) (fail_with ENOMEM (world s)) eq_refl) as H.
  fold r in H. destruct r as [status s'].
  destruct H as (Hshould & Hrunning & _ & _ & Hfail).
  destruct (Hfail eq_refl) as [Hstatus Hlog].
  split; [reflexivity|]. split; [reflexivity|].
  split; [exact Hstatus|]. split; [exact Hshould|].
  split; [exact Hrunning | exact Hlog].
Defined.

Lemma open_serial_failure_preserves_errno_witness :
  let s := bench_state false false (true, false, true, true) [] in
  let r := @open_serial bench tty s in
  @tty_set_speed bench 3 B9600 (world s) = (false, fail_with ENOTTY (world s))
  /\ errno (@sys_close bench 3 (fail_with ENOTTY (world s))) = EBADF
  /\ fileno (fst r) = -1
  /\ errno (world (snd r)) = ENOTTY.
Proof.
  intros s r.
  pose proof (@open_serial_failure_preserves_errno bench tty s 3 (world s)
                (fail_with ENOTTY (world s)) (fail_with ENOTTY (world s))
                false true eq_refl ltac:(discriminate) eq_refl eq_refl eq_refl)
    as H.
  fold r in H. destruct r as [d s'].
  destruct H as (Hd & Herrno & _).
  split; [reflexivity|]. split; [reflexivity|].
  split; [exact Hd | exact Herrno].
Defined.

Lemma maintenance_allowed_iff_not_running_witness :
  let s := bench_state true true all_ok [] in
  daemon_running s = true
  /\ fst (@maintenance_allowed bench s) = false
  /\ @main bench ["mobile"; "at"; tty; "AT I 3"] s = (1, logged s [refusal]).
Proof.
  intros s.
  destruct (proj2 (proj2 (@maintenance_allowed_iff_not_running bench s)) eq_refl)
    as (Hfalse & _ & Hat & _).
  split; [reflexivity|]. split; [exact Hfalse|]. apply Hat.
Defined.

Lemma bench_daemon_stopping :
  daemon_run (P := bench) "mobile" tty
    (mk_cfg D_entry (bench_state true false all_ok [])) bench_stopping.
Proof.
  apply (run_env "mobile" tty _ bench_loop).
  - apply (daemon_steps_run "mobile" tty 3). vm_compute. reflexivity.
  - split; [reflexivity|]. exists []. reflexivity.
Qed.

Lemma daemon_running_only_while_device_held_witness :
  daemon_run (P := bench) "mobile" tty
    (mk_cfg D_entry (bench_state true false all_ok [])) bench_stopping
  /\ pc bench_stopping = D_loop (mk_unique_file 3)
  /\ daemon_should_run (st bench_stopping) = false
  /\ daemon_running (st bench_stopping) = true
  /\ device_opened "mobile" tty 3 [] (log (st bench_stopping))
  /\ daemon_step (P := bench) "mobile" tty bench_stopping
     = Some (mk_cfg (D_returned 0)
               (mkState false false
                  (@sys_close bench 3 (world (st bench_stopping)))
                  (log (st bench_stopping)
                     ++ [Print stderr ("mobile" ++ " stopped." ++ nl);
                         Close 3]))).
Proof.
  split; [exact bench_daemon_stopping|].
  split; [reflexivity|]. split; [reflexivity|].
  destruct (@daemon_running_only_while_device_held bench "mobile" tty
              _ _ bench_daemon_stopping) as [Hinv Hstep].
  destruct Hinv as (_ & Hflag & Hopened).
  split; [exact Hflag|]. split; [exact Hopened | exact Hstep].
Defined.

(** * Further properties *)

(** ** Acquiring and releasing the device *)

Section Device.

Context {P : Platform}.

(** X1. When [tty_open] itself fails, [open_serial] returns a closed
    handle having called neither [tty_set_speed] nor [tty_use_ctsrts] nor
    [close] (the trace holds the failed open alone), and [errno] is what
    [tty_open] left, whatever [dbg_perror] did to it. *)
Theorem open_serial_open_failure :
  forall (name : string) (s : State) (w1 : World OS),
    tty_open name (world s) = (-1, w1) ->
    let (d, s') := open_serial name s in
    fileno d = -1
    /\ log s' = (log s ++ [Tty_open name (-1)])%list
    /\ errno (world s') = errno w1
    /\ os (world s') = os (dbg_perror name w1)
    /\ daemon_should_run s' = daemon_should_run s
    /\ daemon_running s' = daemon_running s.
Proof.
  intros name s w1 Hopen. rewrite open_serial_run, Hopen. simpl.
  repeat split; reflexivity.
Qed.

(** X2. [open_serial] returns an open handle exactly when the device
    opened and both the speed and the flow control were set; the handle
    then holds the descriptor that [tty_open] gave, nothing was closed, and
    the world (with its [errno]) is as the last call left it. In every
    other case the handle is closed. *)
Theorem open_serial_open_iff_configured :
  forall (name : string) (s : State) (fd : Z) (w1 w2 w3 : World OS)
         (ok1 ok2 : bool),
    tty_open name (world s) = (fd, w1) ->
    tty_set_speed fd B9600 w1 = (ok1, w2) ->
    tty_use_ctsrts fd w2 = (ok2, w3) ->
    let (d, s') := open_serial name s in
    (fileno d <> -1 <-> fd <> -1 /\ ok1 = true /\ ok2 = true)
    /\ (fileno d = -1 \/ fileno d = fd)
    /\ (fileno d <> -1 ->
        world s' = w3
        /\ log s' = (log s ++ [Tty_open name fd; Tty_set_speed fd B9600 true;
                               Tty_use_ctsrts fd true])%list).
Proof.
  intros name s fd w1 w2 w3 ok1 ok2 Hopen Hspeed Hcts.
  rewrite open_serial_run, Hopen.
  destruct (fd =? -1) eqn:Hfd.
  - apply Z.eqb_eq in Hfd. simpl. split; [|split].
    + split; [intros H; contradiction | intros [H _]; contradiction].
    + left; reflexivity.
    + intros H; contradiction.
  - apply Z.eqb_neq in Hfd. rewrite Hspeed. destruct ok1.
    + rewrite Hcts. destruct ok2; simpl.
      * split; [|split].
        -- split; [intros _; auto | intros _; exact Hfd].
        -- right; reflexivity.
        -- intros _. split; reflexivity.
      * split; [|split].
        -- split; [intros H; contradiction H; reflexivity
                  | intros (_ & _ & H); discriminate].
        -- left; reflexivity.
        -- intros H; contradiction H; reflexivity.
    + simpl. split; [|split].
      * split; [intros H; contradiction H; reflexivity
               | intros (_ & H & _); discriminate].
      * left; reflexivity.
      * intros H; contradiction H; reflexivity.
Qed.

(** The batch loop prints and runs commands: it opens and closes nothing. *)
Lemma batch_trace_no_open_close (fd : Z) (ran : list (string * Z)) :
  forall i e, In e (batch_trace fd i ran) ->
    (forall fd', e <> Close fd') /\ (forall n fd', e <> Tty_open n fd').
Proof.
  induction ran as [|[cmd r] ran IH]; intros i e Hin; simpl in Hin.
  - contradiction.
  - destruct Hin as [<-|[<-|Hin]].
    + split; intros; discriminate.
    + split; intros; discriminate.
    + exact (IH _ _ Hin).
Qed.

(** [exec_all_AT] in one equation: the gate, the opening, the loop, and
    the handle's destructor. *)
Lemma exec_all_AT_run (devname : string) (arg : list string) (buf : string)
    (size : Z) (s : State) :
  exec_all_AT devname arg buf size s
  = if daemon_running s then ((false, buf), logged s [refusal])
    else
      let (d, s1) := open_serial devname s in
      if fileno d =? -1 then ((false, buf), s1)
      else
        let (r, s2) := exec_all_AT_loop (fileno d) 0 arg buf size s1 in
        (r, with_world s2 (sys_close (fileno d) (world s2))
              [Close (fileno d)]).
Proof.
  unfold exec_all_AT, bind. rewrite maintenance_allowed_run.
  destruct (daemon_running s); [reflexivity|]. simpl.
  destruct (open_serial devname s) as [d s1].
  destruct (fileno d =? -1) eqn:Hd.
  - unfold destroy, close, bind, ret. rewrite Hd. reflexivity.
  - destruct (exec_all_AT_loop (fileno d) 0 arg buf size s1) as [r s2].
    unfold destroy, close, bind, ret, sys_, sys, emit, with_world.
    rewrite Hd. destruct s2; reflexivity.
Qed.

(** X3. [exec_all_AT] never leaves the device open. Whenever the gate lets
    it through and [tty_open] gives a descriptor, whether the configuration
    then fails, a command fails or all succeed, the trace it adds starts
    with that open, ends with the close of that descriptor, and holds no
    other open or close in between. *)
Theorem exec_all_AT_releases_device :
  forall (devname : string) (arg : list string) (buf : string) (size : Z)
         (s : State) (fd : Z) (w1 : World OS),
    daemon_running s = false ->
    tty_open devname (world s) = (fd, w1) ->
    fd <> -1 ->
    exists mid : list event,
      log (snd (exec_all_AT devname arg buf size s))
      = (log s ++ Tty_open devname fd :: mid ++ [Close fd])%list
      /\ (forall e, In e mid ->
            (forall fd', e <> Close fd') /\ (forall n fd', e <> Tty_open n fd')).
Proof.
  intros devname arg buf size s fd w1 Hrun Hopen Hfd.
  rewrite exec_all_AT_run, Hrun, open_serial_run, Hopen.
  apply Z.eqb_neq in Hfd. rewrite Hfd.
  destruct (tty_set_speed fd B9600 w1) as [ok1 w2].
  destruct ok1.
  - destruct (tty_use_ctsrts fd w2) as [ok2 w3].
    destruct ok2; cbn [fileno]; rewrite ?Hfd; cbn [Z.eqb].
    + match goal with
      | |- context [exec_all_AT_loop fd 0 arg buf size ?s1] =>
          destruct (exec_all_AT_loop_trace fd size arg 0 buf s1)
            as (rs & _ & Hlog & _);
          destruct (exec_all_AT_loop fd 0 arg buf size s1) as [r s2]
      end.
      cbv zeta in Hlog. simpl in Hlog. simpl.
      exists ([Tty_set_speed fd B9600 true; Tty_use_ctsrts fd true]
                ++ batch_trace fd 0 (combine arg rs))%list.
      split.
      * rewrite Hlog. rewrite <- !app_assoc. reflexivity.
      * intros e [<-|[<-|Hin]];
          [split; intros; discriminate | split; intros; discriminate |].
        exact (batch_trace_no_open_close _ _ _ _ Hin).
    + simpl. exists [Tty_set_speed fd B9600 true; Tty_use_ctsrts fd false].
      split; [reflexivity|].
      intros e [<-|[<-|[]]]; split; intros; discriminate.
  - cbn [fileno]. simpl.
    exists [Tty_set_speed fd B9600 false]. split; [reflexivity|].
    intros e [<-|[]]; split; intros; discriminate.
Qed.

(** X4. When [open_serial] gives no open handle, [exec_all_AT] fails with
    no command sent and the buffer as it was; the state, [errno] included,
    is the one [open_serial] left. *)
Theorem exec_all_AT_without_device :
  forall (devname : string) (arg : list string) (buf : string) (size : Z)
         (s : State),
    daemon_running s = false ->
    fileno (fst (open_serial devname s)) = -1 ->
    exec_all_AT devname arg buf size s
    = ((false, buf), snd (open_serial devname s)).
Proof.
  intros devname arg buf size s Hrun Hd.
  rewrite exec_all_AT_run, Hrun.
  destruct (open_serial devname s) as [d s1]. simpl in Hd |- *.
  rewrite Hd. reflexivity.
Qed.

(** [exec_all_AT] only adds to the trace. *)
Lemma exec_all_AT_log (devname : string) (arg : list string) (buf : string)
    (size : Z) (s : State) :
  exists es, log (snd (exec_all_AT devname arg buf size s)) = (log s ++ es)%list.
Proof.
  rewrite exec_all_AT_run.
  destruct (daemon_running s); [eexists; reflexivity|].
  pose proof (open_serial_log devname s) as [(es1 & H1) _].
  destruct (open_serial devname s) as [d s1]. cbn [snd] in H1.
  destruct (fileno d =? -1); [exists es1; exact H1|].
  destruct (exec_all_AT_loop_trace (fileno d) size arg 0 buf s1)
    as (rs & _ & H2 & _).
  destruct (exec_all_AT_loop (fileno d) 0 arg buf size s1) as [r s2].
  cbv zeta in H2. cbn [snd with_world log] in H2 |- *.
  eexists. rewrite H2, H1, <- !app_assoc. reflexivity.
Qed.

(** The flags are out of the reach of [exec_all_AT]. *)
Lemma exec_all_AT_flags (devname : string) (arg : list string) (buf : string)
    (size : Z) (s : State) :
  daemon_should_run (snd (exec_all_AT devname arg buf size s))
  = daemon_should_run s
  /\ daemon_running (snd (exec_all_AT devname arg buf size s))
     = daemon_running s.
Proof.
  rewrite exec_all_AT_run.
  destruct (daemon_running s) eqn:Hrun; [split; [reflexivity | exact Hrun]|].
  pose proof (open_serial_flags devname s) as [Hs1 Hr1].
  destruct (open_serial devname s) as [d s1]. simpl in Hs1, Hr1.
  destruct (fileno d =? -1).
  - simpl. split; congruence.
  - destruct (exec_all_AT_loop_trace (fileno d) size arg 0 buf s1)
      as (rs & _ & _ & Hs2 & Hr2 & _).
    destruct (exec_all_AT_loop (fileno d) 0 arg buf size s1) as [r s2].
    simpl in *. split; congruence.
Qed.

End Device.

(** ** The command dispatch *)

Section Dispatch.

Context {P : Platform}.

Lemma usage_run (name : string) (s : State) :
  usage name s = (tt, logged s (usage_lines name)).
Proof.
  destruct s as [should running w l].
  unfold usage, usage_lines, bind, eprintf, emit, logged. simpl.
  rewrite <- !app_assoc. reflexivity.
Qed.

Lemma version_firmware_check_flags (devname : string) (s : State) :
  daemon_should_run (snd (version_firmware_check devname s))
  = daemon_should_run s
  /\ daemon_running (snd (version_firmware_check devname s))
     = daemon_running s.
Proof.
  rewrite version_firmware_check_run.
  pose proof (exec_all_AT_flags devname at_i_3 EmptyString 32 s) as H.
  destruct (exec_all_AT devname at_i_3 EmptyString 32 s) as [[ok buf] s1].
  simpl in H. destruct ok; [|exact H].
  destruct (CLib.strstr buf prefix) as [t|]; [|exact H].
  destruct (version_firmware_parse _ v4_uninitialised) as [parsed v4].
  destruct parsed; [|exact H].
  destruct (version_firmware_compare_le BL600_VERSION_FIRMWARE_MIN v4);
    exact H.
Qed.

Lemma version_firmware_check_log (devname : string) (s : State) :
  exists es, log (snd (version_firmware_check devname s)) = (log s ++ es)%list.
Proof.
  rewrite version_firmware_check_run.
  pose proof (exec_all_AT_log devname at_i_3 EmptyString 32 s) as (es & H).
  destruct (exec_all_AT devname at_i_3 EmptyString 32 s) as [[ok buf] s1].
  cbn [snd] in H. destruct ok; [|exists es; exact H].
  destruct (CLib.strstr buf prefix) as [t|]; [|exists es; exact H].
  destruct (version_firmware_parse _ v4_uninitialised) as [parsed v4].
  destruct parsed;
    [destruct (version_firmware_compare_le BL600_VERSION_FIRMWARE_MIN v4)|];
    cbn [snd logged log]; eexists; rewrite H, <- !app_assoc; reflexivity.
Qed.

(** An argument vector of three words whose second is [word]. *)
Lemma argv_three (argv : list string) (word : string) :
  (Z.of_nat (List.length argv) =? 3) && streq (nth 1 argv EmptyString) word
  = true ->
  argv = [nth 0 argv EmptyString; word; nth 2 argv EmptyString].
Proof.
  intros H. apply andb_true_iff in H. destruct H as [Hlen Hword].
  apply Z.eqb_eq in Hlen. apply String.eqb_eq in Hword.
  destruct argv as [|a [|b [|c [|e argv]]]]; simpl in Hlen; try lia.
  simpl in Hword. subst b. reflexivity.
Qed.

Lemma argv_two (argv : list string) (word : string) :
  (Z.of_nat (List.length argv) =? 2) && streq (nth 1 argv EmptyString) word
  = true ->
  argv = [nth 0 argv EmptyString; word].
Proof.
  intros H. apply andb_true_iff in H. destruct H as [Hlen Hword].
  apply Z.eqb_eq in Hlen. apply String.eqb_eq in Hword.
  destruct argv as [|a [|b [|c argv]]]; simpl in Hlen; try lia.
  simpl in Hword. subst b. reflexivity.
Qed.

(** [stop], in full. *)
Lemma main_stop_run (name : string) (s : State) :
  main [name; "stop"] s
  = if daemon_running s then
      (0, mkState false (daemon_running s) (world s) (log s))
    else (1, logged s [Print stderr (name ++ " is NOT running." ++ nl)]).
Proof.
  destruct s as [should running w l].
  unfold main. cbn [List.length nth Z.of_nat]. simpl.
  unfold bind, get_running, eprintf, emit, ret, logged, set_should_run.
  simpl. destruct running; reflexivity.
Qed.

(** [status], in full. *)
Lemma main_status_run (name : string) (s : State) :
  main [name; "status"] s
  = (0, logged s (status_lines name (daemon_should_run s) (daemon_running s))).
Proof.
  destruct s as [should running w l].
  unfold main. cbn [List.length nth Z.of_nat]. simpl.
  unfold bind, get_running, get_should_run, printf, emit, ret, logged,
    status_lines.
  simpl. destruct should, running; simpl; rewrite <- app_assoc; reflexivity.
Qed.

(** What every run of [main] does to the flags and returns. *)
Lemma main_effect (argv : list string) (s : State) :
  let r := main argv s in
  daemon_running (snd r) = daemon_running s
  /\ (fst r = 0 \/ fst r = 1
      \/ (fst r = -1
          /\ argv = [nth 0 argv EmptyString; "start"; nth 2 argv EmptyString]
          /\ daemon_running s = false))
  /\ (daemon_should_run (snd r) = daemon_should_run s
      \/ (argv = [nth 0 argv EmptyString; "start"; nth 2 argv EmptyString]
          /\ daemon_running s = false /\ daemon_should_run (snd r) = true)
      \/ (argv = [nth 0 argv EmptyString; "stop"]
          /\ daemon_running s = true /\ daemon_should_run (snd r) = false)).
Proof.
  cbv zeta. unfold main.
  destruct (Z.of_nat (List.length argv) <? 2) eqn:Hshort.
  { unfold bind. rewrite usage_run. simpl. auto. }
  destruct ((Z.of_nat (List.length argv) =? 3)
            && streq (nth 1 argv EmptyString) "start") eqn:Hstart.
  { pose proof (argv_three _ _ Hstart) as Hargv.
    destruct s as [should running w l].
    unfold bind, get_running, eprintf, emit, ret, set_should_run, sys, perror,
      get_errno.
    simpl. destruct running; simpl; [auto|].
    destruct (task_spawn_cmd _ _ w) as [r w']. simpl.
    destruct (r =? -1); simpl.
    - split; [reflexivity|]. split; [right; right; auto|]. right; left; auto.
    - split; [reflexivity|]. split; [left; reflexivity|]. right; left; auto. }
  destruct ((Z.of_nat (List.length argv) =? 2)
            && streq (nth 1 argv EmptyString) "status") eqn:Hstatus.
  { destruct s as [should running w l].
    unfold bind, get_running, get_should_run, printf, emit, ret.
    simpl. destruct should, running; simpl; auto. }
  destruct ((Z.of_nat (List.length argv) =? 2)
            && streq (nth 1 argv EmptyString) "stop") eqn:Hstop.
  { pose proof (argv_two _ _ Hstop) as Hargv.
    destruct s as [should running w l].
    unfold bind, get_running, eprintf, emit, ret, set_should_run.
    simpl. destruct running; simpl.
    - split; [reflexivity|]. split; [left; reflexivity|]. right; right; auto.
    - auto. }
  destruct ((Z.of_nat (List.length argv) =? 3)
            && streq (nth 1 argv EmptyString) "mode") eqn:Hmode.
  { unfold bind. rewrite maintenance_allowed_run.
    destruct (daemon_running s) eqn:Hrun; cbn [negb fst snd];
      [rewrite ?Hrun; simpl; auto|].
    destruct (streq (nth 2 argv EmptyString) "at").
    - unfold sys_, sys, emit, ret. simpl. auto.
    - destruct (streq (nth 2 argv EmptyString) "default").
      + unfold sys_, sys, emit, ret. simpl. auto.
      + rewrite usage_run. simpl. auto. }
  destruct ((3 <? Z.of_nat (List.length argv))
            && streq (nth 1 argv EmptyString) "at") eqn:Hat.
  { unfold and_then, bind. rewrite maintenance_allowed_run.
    destruct (daemon_running s) eqn:Hrun; cbn [negb fst snd];
      [rewrite ?Hrun; simpl; auto|].
    unfold exec_all_AT_3, bind.
    pose proof (exec_all_AT_flags (nth 2 argv EmptyString) (skipn 3 argv)
                  EmptyString 32 s) as [Hs Hr].
    destruct (exec_all_AT _ _ EmptyString 32 s) as [[ok buf] s1].
    simpl in Hs, Hr. unfold ret. destruct ok; simpl; rewrite Hr, Hs; auto. }
  destruct (((Z.of_nat (List.length argv) =? 3)
             || (Z.of_nat (List.length argv) =? 4))
            && streq (nth 1 argv EmptyString) "firmware-version") eqn:Hfw.
  { unfold and_then, bind. rewrite maintenance_allowed_run.
    destruct (daemon_running s) eqn:Hrun; cbn [negb fst snd];
      [rewrite ?Hrun; simpl; auto|].
    pose proof (version_firmware_check_flags (nth 2 argv EmptyString) s)
      as [Hs Hr].
    destruct (version_firmware_check _ s) as [ok s1].
    simpl in Hs, Hr. unfold ret. destruct ok; simpl; rewrite Hr, Hs; auto. }
  unfold bind. rewrite usage_run. simpl. auto.
Qed.

(** Every run of [main] only adds to the trace. *)
Lemma main_log_extends (argv : list string) (s : State) :
  exists es, log (snd (main argv s)) = (log s ++ es)%list.
Proof.
  unfold main.
  destruct (Z.of_nat (List.length argv) <? 2).
  { unfold bind. rewrite usage_run. eexists; reflexivity. }
  destruct ((Z.of_nat (List.length argv) =? 3)
            && streq (nth 1 argv EmptyString) "start").
  { destruct s as [should running w l].
    unfold bind, get_running, eprintf, emit, ret, set_should_run, sys, perror,
      get_errno.
    simpl. destruct running; simpl; [eexists; reflexivity|].
    destruct (task_spawn_cmd _ _ w) as [r w']. simpl.
    destruct (r =? -1); simpl; eexists; rewrite <- ?app_assoc; reflexivity. }
  destruct ((Z.of_nat (List.length argv) =? 2)
            && streq (nth 1 argv EmptyString) "status").
  { destruct s as [should running w l].
    unfold bind, get_running, get_should_run, printf, emit, ret.
    simpl. destruct should, running; simpl; eexists;
      rewrite <- ?app_assoc; reflexivity. }
  destruct ((Z.of_nat (List.length argv) =? 2)
            && streq (nth 1 argv EmptyString) "stop").
  { destruct s as [should running w l].
    unfold bind, get_running, eprintf, emit, ret, set_should_run.
    simpl. destruct running; simpl;
      [exists []; rewrite app_nil_r; reflexivity | eexists; reflexivity]. }
  destruct ((Z.of_nat (List.length argv) =? 3)
            && streq (nth 1 argv EmptyString) "mode").
  { unfold bind. rewrite maintenance_allowed_run.
    destruct (daemon_running s) eqn:Hrun; cbn [negb fst snd];
      [eexists; reflexivity|].
    destruct (streq (nth 2 argv EmptyString) "at").
    - unfold sys_, sys, emit, ret. simpl. eexists; reflexivity.
    - destruct (streq (nth 2 argv EmptyString) "default").
      + unfold sys_, sys, emit, ret. simpl. eexists; reflexivity.
      + rewrite usage_run. eexists; reflexivity. }
  destruct ((3 <? Z.of_nat (List.length argv))
            && streq (nth 1 argv EmptyString) "at").
  { unfold and_then, bind. rewrite maintenance_allowed_run.
    destruct (daemon_running s) eqn:Hrun; cbn [negb fst snd];
      [eexists; reflexivity|].
    unfold exec_all_AT_3, bind.
    pose proof (exec_all_AT_log (nth 2 argv EmptyString) (skipn 3 argv)
                  EmptyString 32 s) as (es & H).
    destruct (exec_all_AT _ _ EmptyString 32 s) as [[ok buf] s1].
    cbn [snd] in H. unfold ret. destruct ok; exists es; exact H. }
  destruct (((Z.of_nat (List.length argv) =? 3)
             || (Z.of_nat (List.length argv) =? 4))
            && streq (nth 1 argv EmptyString) "firmware-version").
  { unfold and_then, bind. rewrite maintenance_allowed_run.
    destruct (daemon_running s) eqn:Hrun; cbn [negb fst snd];
      [eexists; reflexivity|].
    pose proof (version_firmware_check_log (nth 2 argv EmptyString) s)
      as (es & H).
    destruct (version_firmware_check _ s) as [ok s1].
    cbn [snd] in H. unfold ret. destruct ok; exists es; exact H. }
  unfold bind. rewrite usage_run. eexists; reflexivity.
Qed.

(** X5. No command of [main] writes [daemon_running]: whatever the
    arguments and the platform, the flag is after the command what it was
    before. So any foreground command may be run between two steps of the
    daemon task, and the result is again an execution of the task. *)
Theorem main_never_writes_daemon_running :
  forall (argv : list string) (s : State),
    daemon_running (snd (main argv s)) = daemon_running s
    /\ (forall name path c c',
          st c' = s ->
          daemon_run name path c c' ->
          daemon_run name path c (mk_cfg (pc c') (snd (main argv s)))).
Proof.
  intros argv s. pose proof (main_effect argv s) as [Hrun _].
  cbv zeta in Hrun. split; [exact Hrun|].
  intros name path c c' Hst Hc. apply run_env; [exact Hc|].
  unfold interference. rewrite Hst.
  split; [exact Hrun | apply main_log_extends].
Qed.

(** X6. [daemon_should_run] changes in two ways only: a [start] given
    while the daemon is not running sets it, a [stop] given while it is
    running clears it. Every other command line, and these two in the
    other state of [daemon_running], leave it alone. *)
Theorem main_request_flag_only_start_stop :
  forall (argv : list string) (s : State),
    let s' := snd (main argv s) in
    daemon_should_run s' = daemon_should_run s
    \/ (argv = [nth 0 argv EmptyString; "start"; nth 2 argv EmptyString]
        /\ daemon_running s = false /\ daemon_should_run s' = true)
    \/ (argv = [nth 0 argv EmptyString; "stop"]
        /\ daemon_running s = true /\ daemon_should_run s' = false).
Proof.
  intros argv s. pose proof (main_effect argv s) as (_ & _ & H). exact H.
Qed.

(** X7. The exit status of [main] is 0 or 1, except that a [start] given
    while the daemon is not running may return -1 (its spawn failed). *)
Theorem main_exit_status :
  forall (argv : list string) (s : State),
    fst (main argv s) = 0 \/ fst (main argv s) = 1
    \/ (fst (main argv s) = -1
        /\ argv = [nth 0 argv EmptyString; "start"; nth 2 argv EmptyString]
        /\ daemon_running s = false).
Proof.
  intros argv s. pose proof (main_effect argv s) as (_ & H & _). exact H.
Qed.

Lemma streq_not_in (w : string) (ws : list string) (x : string) :
  ~ In x ws -> In w ws -> streq x w = false.
Proof.
  intros Hx Hw. unfold streq. apply String.eqb_neq. intros ->. exact (Hx Hw).
Qed.

(** X8. A command line that holds the program name and no command word,
    or whose command word is none of the six that [main] knows, gets the
    usage text for that name on [stderr] and status 1; the flags and the
    world are untouched. *)
Theorem main_unknown_command_prints_usage :
  forall (name : string) (rest : list string) (s : State),
    rest = [] \/ ~ In (nth 0 rest EmptyString) commands ->
    main (name :: rest) s = (1, logged s (usage_lines name)).
Proof.
  intros name rest s H. unfold main, bind.
  destruct (Z.of_nat (List.length (name :: rest)) <? 2) eqn:Hshort.
  - rewrite usage_run. reflexivity.
  - destruct H as [->|H]; [discriminate Hshort|].
    cbn [nth] in *.
    rewrite !(streq_not_in _ commands _ H) by (simpl; tauto).
    rewrite !andb_false_r. rewrite usage_run. reflexivity.
Qed.

Lemma append_cancel_l (a x y : string) : a ++ x = a ++ y -> x = y.
Proof.
  induction a as [|c a IH]; simpl; intros H; [exact H|].
  inversion H. apply IH. assumption.
Qed.

(** X9. [status] only reads: it returns 0 and adds two lines to [stdout],
    leaving the flags and the world as they are; and the two lines tell
    the four states of the flags apart, for they are equal for two pairs
    of flags only if the pairs are equal. *)
Theorem main_status_reports_flags :
  forall (name : string) (s : State),
    main [name; "status"] s
    = (0, logged s (status_lines name (daemon_should_run s) (daemon_running s)))
    /\ (forall should running : bool,
          status_lines name should running
          = status_lines name (daemon_should_run s) (daemon_running s) ->
          should = daemon_should_run s /\ running = daemon_running s).
Proof.
  intros name s. split; [apply main_status_run|].
  intros should running H. unfold status_lines in H.
  inversion H as [[H1 H2]].
  apply append_cancel_l in H1. apply append_cancel_l in H2.
  destruct should, running, (daemon_should_run s), (daemon_running s);
    try discriminate; split; reflexivity.
Qed.

(** X10. An unknown mode is refused before the modem is touched: with the
    daemon not running, [mode at] calls [mode_AT] and [mode default] calls
    [mode_default], each returning 0, and any other word gets the usage
    text and status 1 with the world as it was. *)
Theorem main_mode_dispatch :
  forall (name m : string) (s : State),
    daemon_running s = false ->
    main [name; "mode"; m] s
    = if streq m "at" then (0, with_world s (mode_AT (world s)) [Mode_AT])
      else if streq m "default" then
        (0, with_world s (mode_default (world s)) [Mode_default])
      else (1, logged s (usage_lines name)).
Proof.
  intros name m s Hrun. destruct s as [should running w l].
  simpl in Hrun. subst running.
  unfold main. cbn [List.length nth Z.of_nat]. simpl.
  unfold bind. rewrite maintenance_allowed_run. simpl.
  unfold streq. destruct (String.eqb m "at"); [reflexivity|].
  destruct (String.eqb m "default"); [reflexivity|].
  unfold usage_lines, logged, bind, eprintf, emit. simpl.
  rewrite <- !app_assoc. reflexivity.
Qed.

(** X11. With the daemon not running, [at] and [firmware-version] return 0
    exactly when the batch, or the version check, succeeds, and 1
    otherwise, and leave the state that operation left; a fourth argument
    to [firmware-version] is accepted and ignored. *)
Theorem main_maintenance_exit_status :
  forall (name dev cmd : string) (cmds : list string) (s : State),
    daemon_running s = false ->
    main (name :: "at" :: dev :: cmd :: cmds) s
    = (let r := exec_all_AT dev (cmd :: cmds) EmptyString 32 s in
       (if fst (fst r) then 0 else 1, snd r))
    /\ main [name; "firmware-version"; dev] s
       = (let r := version_firmware_check dev s in
          (if fst r then 0 else 1, snd r))
    /\ (forall x : string,
          main [name; "firmware-version"; dev; x] s
          = main [name; "firmware-version"; dev] s).
Proof.
  intros name dev cmd cmds s Hrun. split; [|split].
  - unfold main.
    destruct (argc_at name dev cmd cmds) as (A1 & A2 & A3 & A4).
    cbv zeta in A1, A2, A3, A4. rewrite A1, A2, A3, A4.
    cbn [nth andb streq String.eqb Ascii.eqb Bool.eqb skipn].
    unfold and_then, bind. rewrite maintenance_allowed_run, Hrun.
    cbn [negb]. unfold exec_all_AT_3, bind.
    destruct (exec_all_AT dev (cmd :: cmds) EmptyString 32 s) as [[ok buf] s1].
    destruct ok; reflexivity.
  - unfold main. cbn [List.length nth Z.of_nat]. simpl.
    unfold and_then, bind. rewrite maintenance_allowed_run, Hrun.
    cbn [negb]. destruct (version_firmware_check dev s) as [ok s1].
    destruct ok; reflexivity.
  - intros x. reflexivity.
Qed.

End Dispatch.

(** ** The life of the daemon *)

Section Lifecycle.

Context {P : Platform}.

Variables name path : string.

(** X12. Left alone, the daemon never returns while [daemon_should_run] is
    true: from the loop, after any number [n] of steps it is still in the
    loop, holding the same handle, having called [process_one_command]
    [n] times and nothing else; the flags are as they were. *)
Theorem daemon_loops_until_stopped :
  forall (n : nat) (d : unique_file) (s : State),
    daemon_should_run s = true ->
    daemon_steps name path n (mk_cfg (D_loop d) s)
    = Some (mk_cfg (D_loop d)
              (mkState true (daemon_running s)
                 (Nat.iter n (process_one_command (fileno d)) (world s))
                 (log s ++ repeat (Process_one (fileno d)) n))).
Proof.
  intros n d s Hshould. induction n as [|n IH].
  - destruct s as [should running w l]. simpl in *. subst should.
    rewrite app_nil_r. reflexivity.
  - cbn [daemon_steps]. rewrite IH.
    rewrite daemon_step_loop by reflexivity.
    cbn [world log daemon_running Nat.iter nat_rect].
    rewrite <- app_assoc, <- repeat_cons. reflexivity.
Qed.

(** X13. A [stop] is honoured at the next test of the loop. Given while
    the daemon is in its loop, it returns 0 at once, printing nothing and
    touching neither the device nor [daemon_running]; a second [stop]
    before the daemon has looked does the same. The daemon's next step
    then leaves the loop: it clears [daemon_running], closes its handle
    and returns 0. After that a further [stop] is refused with status 1. *)
Theorem stop_ends_daemon_at_next_step :
  forall (prog : string) (d : unique_file) (s : State),
    fileno d <> -1 ->
    daemon_running s = true ->
    let stopping := mkState false true (world s) (log s) in
    let stopped :=
      mkState false false (sys_close (fileno d) (world s))
        (log s ++ [Print stderr (name ++ " stopped." ++ nl);
                   Close (fileno d)]) in
    main [prog; "stop"] s = (0, stopping)
    /\ main [prog; "stop"] stopping = (0, stopping)
    /\ daemon_step name path (mk_cfg (D_loop d) stopping)
       = Some (mk_cfg (D_returned 0) stopped)
    /\ main [prog; "stop"] stopped
       = (1, logged stopped [Print stderr (prog ++ " is NOT running." ++ nl)]).
Proof.
  intros prog d s Hd Hrun stopping stopped.
  split; [|split; [|split]].
  - rewrite main_stop_run, Hrun. reflexivity.
  - rewrite main_stop_run. reflexivity.
  - rewrite (daemon_step_stop name path d stopping Hd eq_refl). reflexivity.
  - rewrite main_stop_run. reflexivity.
Qed.

(** X14. A daemon that cannot open its device returns 1 in two steps
    without writing either flag: [daemon_should_run] stays set with
    [daemon_running] false, and a [stop] given then is refused with
    status 1 and leaves [daemon_should_run] set. *)
Theorem failed_daemon_leaves_request_set :
  forall (prog : string) (s : State),
    daemon_should_run s = true ->
    daemon_running s = false ->
    fileno (fst (open_serial path
                   (logged s [Print stderr (name ++ " starting..." ++ nl)])))
    = -1 ->
    exists s2 : State,
      daemon_steps name path 2 (mk_cfg D_entry s)
      = Some (mk_cfg (D_returned 1) s2)
      /\ daemon_should_run s2 = true
      /\ daemon_running s2 = false
      /\ (exists before, log s2 = (before ++ [Perror name (errno (world s2))])%list)
      /\ main [prog; "stop"] s2
         = (1, logged s2 [Print stderr (prog ++ " is NOT running." ++ nl)]).
Proof.
  intros prog s Hshould Hrun Hd.
  set (s0 := logged s [Print stderr (name ++ " starting..." ++ nl)]) in *.
  pose proof (open_serial_flags path s0) as [Hs1 Hr1].
  destruct (open_serial path s0) as [d s1] eqn:Hopen. simpl in Hd, Hs1, Hr1.
  exists (logged s1 [Perror name (errno (world s1))]).
  assert (Hentry : daemon_step name path (mk_cfg D_entry s)
                   = Some (mk_cfg (D_opened d) s1)).
  { unfold daemon_step. cbn [pc st]. unfold bind, eprintf, emit.
    fold (logged s [Print stderr (name ++ " starting..." ++ nl)]).
    fold s0. rewrite Hopen. reflexivity. }
  split; [|split; [|split; [|split]]].
  - cbn [daemon_steps]. rewrite Hentry. apply daemon_step_open_failed. exact Hd.
  - simpl. rewrite Hs1. exact Hshould.
  - simpl. rewrite Hr1. exact Hrun.
  - exists (log s1). reflexivity.
  - rewrite main_stop_run. simpl. rewrite Hr1. unfold s0. simpl. rewrite Hrun.
    reflexivity.
Qed.

End Lifecycle.

(** ** Decimal numerals and the version string *)

Lemma append_assoc (a b c : string) : (a ++ b) ++ c = a ++ b ++ c.
Proof. induction a as [|x a IH]; simpl; [reflexivity | rewrite IH; reflexivity]. Qed.

Lemma append_nil_r (a : string) : a ++ EmptyString = a.
Proof. induction a as [|x a IH]; simpl; [reflexivity | rewrite IH; reflexivity]. Qed.

(** [strtoul] reads a run of decimal digits as the numeral they write. *)
Lemma scan_digits_uint (d : Decimal.uint) :
  forall acc : Z,
    CLib.scan_digits 10 acc (NilEmpty.string_of_uint d)
    = (uint_value d acc, String.length (NilEmpty.string_of_uint d)).
Proof.
  induction d; intros acc; cbn [NilEmpty.string_of_uint uint_value];
    try reflexivity;
    cbn [CLib.scan_digits String.length];
    match goal with
    | |- context [CLib.digit_in 10 ?c] =>
        let v := eval vm_compute in (CLib.digit_in 10 c) in
        change (CLib.digit_in 10 c) with v
    end;
    cbv iota; rewrite IHd; reflexivity.
Qed.

Lemma uint_value_pos (d : Decimal.uint) :
  forall p : positive, uint_value d (Z.pos p) = Z.pos (Pos.of_uint_acc d p).
Proof.
  induction d; intros p; cbn [uint_value Pos.of_uint_acc]; try reflexivity;
    match goal with
    | |- uint_value _ ?a = Z.pos (Pos.of_uint_acc _ ?q) =>
        replace a with (Z.pos q) by lia
    end;
    apply IHd.
Qed.

Lemma uint_value_zero (d : Decimal.uint) :
  uint_value d 0 = Z.of_N (Pos.of_uint d).
Proof.
  induction d; cbn [uint_value Pos.of_uint]; try reflexivity;
    try exact IHd; cbn [Z.mul Z.add]; rewrite uint_value_pos; reflexivity.
Qed.

(** The numeral of a positive number starts with a digit that is not 0. *)
Lemma to_uint_head (p : positive) :
  Pos.to_uint p <> Decimal.Nil
  /\ forall d, Pos.to_uint p <> Decimal.D0 d.
Proof.
  split; [apply DecimalPos.Unsigned.to_uint_nonnil|].
  intros d Hd.
  pose proof (DecimalPos.Unsigned.to_of (Pos.to_uint p)) as Hnorm.
  rewrite DecimalPos.Unsigned.of_to in Hnorm. cbn [N.to_uint] in Hnorm.
  unfold Decimal.unorm in Hnorm.
  destruct (Decimal.nzhead (Pos.to_uint p)) eqn:Hhead.
  - rewrite Hd in Hnorm. inversion Hnorm; subst.
    pose proof (DecimalPos.Unsigned.of_to p) as Hof. rewrite Hd in Hof.
    discriminate Hof.
  - rewrite Hnorm in Hhead.
    exact (DecimalFacts.nzhead_nonzero _ _ Hhead).
  - rewrite Hnorm in Hd. discriminate.
  - rewrite Hnorm in Hd. discriminate.
  - rewrite Hnorm in Hd. discriminate.
  - rewrite Hnorm in Hd. discriminate.
  - rewrite Hnorm in Hd. discriminate.
  - rewrite Hnorm in Hd. discriminate.
  - rewrite Hnorm in Hd. discriminate.
  - rewrite Hnorm in Hd. discriminate.
  - rewrite Hnorm in Hd. discriminate.
Qed.

Lemma dec_pos (p : positive) :
  dec (Z.pos p) = NilEmpty.string_of_uint (Pos.to_uint p).
Proof.
  unfold dec. cbn [Z.to_N N.to_uint]. unfold NilZero.string_of_uint.
  destruct (Pos.to_uint p) eqn:E; try reflexivity.
  exfalso. exact (proj1 (to_uint_head p) E).
Qed.

(** [strtoul] on the decimal writing of a number: the number, or
    [ULONG_MAX] if it does not fit, and the whole string is read. *)
Lemma strtoul_dec (n : Z) :
  0 <= n ->
  CLib.strtoul (dec n) 0
  = (Z.min n ULONG_MAX, String.length (dec n))
  /\ String.length (dec n) <> O.
Proof.
  intros Hn. destruct n as [|p|p]; [split; [reflexivity | discriminate]| |lia].
  rewrite dec_pos.
  pose proof (scan_digits_uint (Pos.to_uint p) 0) as Hscan.
  rewrite uint_value_zero, DecimalPos.Unsigned.of_to in Hscan.
  cbn [Z.of_N] in Hscan.
  destruct (to_uint_head p) as [Hnil Hzero].
  assert (Hr : (if ULONG_MAX <? Z.pos p then ULONG_MAX else Z.pos p)
               = Z.min (Z.pos p) ULONG_MAX).
  { destruct (ULONG_MAX <? Z.pos p) eqn:E;
      [apply Z.ltb_lt in E | apply Z.ltb_ge in E]; lia. }
  destruct (Pos.to_uint p) as [|d|d|d|d|d|d|d|d|d|d] eqn:E;
    try (exfalso; apply Hnil; reflexivity);
    try (exfalso; apply (Hzero d); reflexivity);
    (split; [|discriminate]);
    unfold CLib.strtoul;
    cbn [NilEmpty.string_of_uint CLib.count_space CLib.drop] in *;
    match goal with
    | |- context [CLib.isspace ?c] =>
        change (CLib.isspace c) with false
    end;
    cbv iota; cbn [CLib.drop CLib.scan_sign];
    cbv iota beta;
    cbn [CLib.drop];
    match goal with
    | |- context [CLib.scan_base 0 ?s] =>
        change (CLib.scan_base 0 s) with (10, O)
    end;
    cbv iota beta; cbn [CLib.drop];
    rewrite Hscan; cbn [String.length Nat.add]; rewrite Hr; reflexivity.
Qed.

Lemma parse_uint_dec (n : Z) :
  0 <= n -> parse_uint (dec n) = (true, Z.min n ULONG_MAX).
Proof.
  intros Hn. destruct (strtoul_dec n Hn) as [Hs Hlen].
  unfold parse_uint, parse_uint_tail. rewrite Hs.
  rewrite Nat.eqb_refl. apply Nat.eqb_neq in Hlen. rewrite Hlen.
  cbn [negb andb]. f_equal. apply u32_small.
  unfold is_u32, UINT_BITS, ULONG_MAX. lia.
Qed.

Lemma parse_uint_reads_decimal_aux (n : Z) :
  is_u32 n -> parse_uint (dec n) = (true, n).
Proof.
  intros Hn. unfold is_u32, UINT_BITS in Hn.
  rewrite parse_uint_dec by lia. f_equal. unfold ULONG_MAX. lia.
Qed.

(** X15. Reading back what [printf("%u")] writes: for every value of an
    [unsigned], [parse_uint] accepts its decimal writing and gives the
    value back. *)
Theorem parse_uint_reads_decimal :
  forall n : Z, is_u32 n -> parse_uint (dec n) = (true, n).
Proof.
  intros n Hn. unfold is_u32, UINT_BITS in Hn.
  rewrite parse_uint_dec by lia.
  f_equal. unfold ULONG_MAX. apply Z.min_l. lia.
Qed.

(** X16. [parse_uint] does not detect overflow: the decimal writing of a
    number too large for an [unsigned] is accepted like any other, and
    what is stored is an [unsigned], hence not the number written. (Which
    one depends on the width of [unsigned long]; the [ERANGE] that
    [strtoul] may signal is never looked at.) *)
Theorem parse_uint_accepts_overflow :
  forall n : Z,
    2 ^ 32 <= n ->
    fst (parse_uint (dec n)) = true
    /\ is_u32 (snd (parse_uint (dec n)))
    /\ snd (parse_uint (dec n)) <> n.
Proof.
  intros n Hn. pose proof (parse_uint_is_u32 (dec n)) as Hu.
  rewrite parse_uint_dec in * by lia. cbn [fst snd] in *.
  split; [reflexivity|]. split; [exact Hu|].
  unfold is_u32, UINT_BITS in Hu. lia.
Qed.

(** A decimal numeral is one field: it holds no delimiter. *)
Lemma fields_uint (d : Decimal.uint) :
  fields sep (NilEmpty.string_of_uint d) = [NilEmpty.string_of_uint d].
Proof.
  induction d; cbn [NilEmpty.string_of_uint fields]; try reflexivity;
    match goal with
    | |- context [CLib.mem_char ?c sep] =>
        change (CLib.mem_char c sep) with false
    end;
    cbv iota; rewrite IHd; reflexivity.
Qed.

Lemma tokens_dec (n : Z) : tokens sep (dec n) = [dec n].
Proof.
  unfold dec, NilZero.string_of_uint.
  destruct (N.to_uint (Z.to_N n)) eqn:E; try reflexivity;
    unfold tokens; rewrite fields_uint; reflexivity.
Qed.

(** A written version, then nothing or a delimiter and anything. *)
Lemma tokens_dotted (a b c d : Z) (term : string) :
  term = EmptyString
  \/ (exists x rest, term = String x rest /\ CLib.mem_char x sep = true) ->
  exists rest,
    tokens sep (dotted a b c d ++ term) = dec a :: dec b :: dec c :: dec d :: rest.
Proof.
  intros Hterm. unfold dotted. rewrite !append_assoc.
  cbn [append].
  rewrite !(tokens_app_delimiter sep _ _ ".") by reflexivity.
  rewrite !tokens_dec.
  destruct Hterm as [->|(x & rest & -> & Hx)].
  - exists []. rewrite append_nil_r, tokens_dec. reflexivity.
  - exists (tokens sep rest).
    rewrite (tokens_app_delimiter sep _ _ x) by exact Hx.
    rewrite tokens_dec. reflexivity.
Qed.

Lemma version_firmware_parse_dotted (a b c d : Z) (term : string)
    (j0 j1 j2 j3 : Z) :
  is_u32 a -> is_u32 b -> is_u32 c -> is_u32 d ->
  term = EmptyString
  \/ (exists x rest, term = String x rest /\ CLib.mem_char x sep = true) ->
  version_firmware_parse (dotted a b c d ++ term) [j0; j1; j2; j3]
  = (true, [a; b; c; d]).
Proof.
  intros Ha Hb Hc Hd Hterm.
  destruct (tokens_dotted a b c d term Hterm) as [rest Htok].
  rewrite version_firmware_parse_tokens, Htok.
  cbn [parse_tokens].
  rewrite !parse_uint_reads_decimal_aux by assumption.
  reflexivity.
Qed.

(** X17. A version written as four decimal [unsigned] numbers with dots
    between them parses to these four numbers, whether the string ends
    there or goes on with a delimiter (a CR LF, a further component) and
    anything after it; what the array held before does not matter. *)
Theorem version_firmware_parse_reads_written_version :
  forall (a b c d : Z) (term : string) (j0 j1 j2 j3 : Z),
    is_u32 a -> is_u32 b -> is_u32 c -> is_u32 d ->
    term = EmptyString
    \/ (exists x rest, term = String x rest /\ CLib.mem_char x sep = true) ->
    version_firmware_parse (dotted a b c d ++ term) [j0; j1; j2; j3]
    = (true, [a; b; c; d]).
Proof.
  intros a b c d term j0 j1 j2 j3 Ha Hb Hc Hd Hterm.
  destruct (tokens_dotted a b c d term Hterm) as [rest Htok].
  rewrite version_firmware_parse_tokens, Htok.
  cbn [parse_tokens].
  rewrite (parse_uint_reads_decimal_aux a Ha), (parse_uint_reads_decimal_aux b Hb),
    (parse_uint_reads_decimal_aux c Hc), (parse_uint_reads_decimal_aux d Hd).
  reflexivity.
Qed.

Lemma version_firmware_parse_reads_written_version_witness :
  (is_u32 1 /\ is_u32 8 /\ is_u32 88 /\ is_u32 4294967295)
  /\ version_firmware_parse (dotted 1 8 88 4294967295 ++ crlf) [0; 0; 0; 0]
     = (true, [1; 8; 88; 4294967295]).
Proof.
  assert (U : is_u32 1 /\ is_u32 8 /\ is_u32 88 /\ is_u32 4294967295)
    by (unfold is_u32, UINT_BITS; simpl; lia).
  split; [exact U|]. destruct U as (a & b & c & d).
  apply version_firmware_parse_reads_written_version; try assumption.
  right. exists CR, (String LF EmptyString). split; reflexivity.
Defined.

(** X18. [version_firmware_parse] writes one slot per token it reads and
    no other: the array keeps its four slots, the slots from the number of
    tokens on are as they were, and after a success none of the four is:
    the result does not depend on what the array held. *)
Theorem version_firmware_parse_writes_read_slots :
  forall (s : string) (j0 j1 j2 j3 : Z),
    let r := version_firmware_parse s [j0; j1; j2; j3] in
    List.length (snd r) = 4%nat
    /\ (forall i : nat,
          (List.length (tokens sep s) <= i)%nat ->
          at_index (snd r) i = at_index [j0; j1; j2; j3] i)
    /\ (forall k0 k1 k2 k3 : Z,
          fst (version_firmware_parse s [k0; k1; k2; k3]) = fst r
          /\ (fst r = true ->
              version_firmware_parse s [k0; k1; k2; k3] = r)).
Proof.
  intros s j0 j1 j2 j3. cbv zeta. rewrite !version_firmware_parse_tokens.
  split; [|split].
  - parse_cases (tokens sep s); reflexivity.
  - intros i. unfold at_index.
    parse_cases (tokens sep s); intros Hi;
      destruct i as [|[|[|[|i]]]]; simpl in Hi;
      first [reflexivity | lia].
  - intros k0 k1 k2 k3. rewrite !version_firmware_parse_tokens.
    parse_cases (tokens sep s); split; try reflexivity;
      intros H; try discriminate H; reflexivity.
Qed.

(** X19. Passing the gate is monotone. If a version passes a minimum,
    every version that is lexicographically at least as large passes it
    too, and the version passes every minimum that is lexicographically
    at most as large. *)
Theorem version_firmware_compare_le_monotone :
  forall m0 m1 m2 m3 v0 v1 v2 v3 : Z,
    is_u8 m0 -> is_u8 m1 -> is_u8 m2 -> is_u8 m3 ->
    version_firmware_compare_le [m0; m1; m2; m3] [v0; v1; v2; v3] = true ->
    (forall w0 w1 w2 w3 : Z,
       lex_le [v0; v1; v2; v3] [w0; w1; w2; w3] ->
       version_firmware_compare_le [m0; m1; m2; m3] [w0; w1; w2; w3] = true)
    /\ (forall n0 n1 n2 n3 : Z,
          is_u8 n0 -> is_u8 n1 -> is_u8 n2 -> is_u8 n3 ->
          lex_le [n0; n1; n2; n3] [m0; m1; m2; m3] ->
          version_firmware_compare_le [n0; n1; n2; n3] [v0; v1; v2; v3]
          = true).
Proof.
  intros m0 m1 m2 m3 v0 v1 v2 v3 M0 M1 M2 M3 Hpass.
  rewrite compare_le_unfold in Hpass by assumption.
  revert Hpass. bool_to_prop. intros Hpass. split.
  - intros w0 w1 w2 w3 Hle. rewrite compare_le_unfold by assumption.
    unfold lex_le, at_index in Hle. simpl in Hle. bool_to_prop. lia.
  - intros n0 n1 n2 n3 N0 N1 N2 N3 Hle.
    rewrite compare_le_unfold by assumption.
    unfold lex_le, at_index in Hle. simpl in Hle. bool_to_prop. lia.
Qed.

Lemma version_firmware_compare_le_monotone_witness :
  (is_u8 1 /\ is_u8 8 /\ is_u8 88 /\ is_u8 0)
  /\ version_firmware_compare_le [1; 8; 88; 0] [1; 8; 88; 0] = true
  /\ lex_le [1; 8; 88; 0] [2; 0; 0; 0]
  /\ version_firmware_compare_le [1; 8; 88; 0] [2; 0; 0; 0] = true.
Proof.
  assert (U : is_u8 1 /\ is_u8 8 /\ is_u8 88 /\ is_u8 0)
    by (unfold is_u8; simpl; lia).
  assert (L : lex_le [1; 8; 88; 0] [2; 0; 0; 0])
    by (unfold lex_le, at_index; simpl; lia).
  split; [exact U|]. split; [reflexivity|]. split; [exact L|].
  destruct U as (a & b & c & d).
  exact (proj1 (version_firmware_compare_le_monotone 1 8 88 0 1 8 88 0
                  a b c d eq_refl) 2 0 0 0 L).
Defined.

(** X20. On tuples of [uint8_t] the comparison is a total order: of two
    tuples one compares below the other, and two tuples that compare below
    each other are equal. *)
Theorem version_firmware_compare_le_total_order :
  forall a0 a1 a2 a3 b0 b1 b2 b3 : Z,
    is_u8 a0 -> is_u8 a1 -> is_u8 a2 -> is_u8 a3 ->
    is_u8 b0 -> is_u8 b1 -> is_u8 b2 -> is_u8 b3 ->
    (version_firmware_compare_le [a0; a1; a2; a3] [b0; b1; b2; b3] = true
     \/ version_firmware_compare_le [b0; b1; b2; b3] [a0; a1; a2; a3] = true)
    /\ (version_firmware_compare_le [a0; a1; a2; a3] [b0; b1; b2; b3] = true ->
        version_firmware_compare_le [b0; b1; b2; b3] [a0; a1; a2; a3] = true ->
        [a0; a1; a2; a3] = [b0; b1; b2; b3]).
Proof.
  intros a0 a1 a2 a3 b0 b1 b2 b3 A0 A1 A2 A3 B0 B1 B2 B3.
  rewrite !compare_le_unfold by assumption. split.
  - bool_to_prop. lia.
  - bool_to_prop. intros H1 H2.
    assert (a0 = b0 /\ a1 = b1 /\ a2 = b2 /\ a3 = b3) as (-> & -> & -> & ->)
      by lia.
    reflexivity.
Qed.

Lemma version_firmware_compare_le_total_order_witness :
  (is_u8 1 /\ is_u8 8 /\ is_u8 88 /\ is_u8 0 /\ is_u8 87)
  /\ (version_firmware_compare_le [1; 8; 88; 0] [1; 8; 87; 0] = true
      \/ version_firmware_compare_le [1; 8; 87; 0] [1; 8; 88; 0] = true).
Proof.
  assert (U : is_u8 1 /\ is_u8 8 /\ is_u8 88 /\ is_u8 0 /\ is_u8 87)
    by (unfold is_u8; simpl; lia).
  split; [exact U|]. destruct U as (a & b & c & d & e).
  exact (proj1 (version_firmware_compare_le_total_order 1 8 88 0 1 8 87 0
                  a b c d a b e d)).
Defined.

(** ** The gate on every version *)

Section GateAll.

Context {P : Platform}.

Lemma strstr_at_head (x : string) :
  CLib.strstr (prefix ++ x) prefix = Some (prefix ++ x).
Proof. destruct x; reflexivity. Qed.

Lemma drop_prefix (x : string) :
  CLib.drop (CLib.strlen prefix) (prefix ++ x) = x.
Proof. reflexivity. Qed.

(** X21. The gate decides by the version alone. When the modem answers
    the query with the prefix, then a version written as four decimal
    [unsigned] numbers with dots, then nothing or a delimiter and anything,
    [version_firmware_check] prints the required version and the version
    read, then its verdict, and passes exactly when 1.8.88.0 is
    lexicographically at most that version. *)
Theorem version_firmware_check_decides_by_version :
  forall (devname : string) (s s1 : State) (a b c d : Z) (term : string),
    exec_all_AT devname at_i_3 EmptyString 32 s
    = ((true, prefix ++ dotted a b c d ++ term), s1) ->
    is_u32 a -> is_u32 b -> is_u32 c -> is_u32 d ->
    term = EmptyString
    \/ (exists x rest, term = String x rest /\ CLib.mem_char x sep = true) ->
    let pass :=
      version_firmware_compare_le BL600_VERSION_FIRMWARE_MIN [a; b; c; d] in
    version_firmware_check devname s
    = (pass, logged s1 [required_line; version_line (show4 [a; b; c; d]);
                        if pass then ready_line else upgrade_line])
    /\ (pass = true <-> lex_le BL600_VERSION_FIRMWARE_MIN [a; b; c; d]).
Proof.
  intros devname s s1 a b c d term Hexec Ha Hb Hc Hd Hterm pass.
  split.
  - rewrite version_firmware_check_run, Hexec, v4_uninitialised_eq.
    rewrite strstr_at_head, drop_prefix.
    rewrite (version_firmware_parse_dotted a b c d term) by assumption.
    cbv beta iota zeta. subst pass.
    destruct (version_firmware_compare_le BL600_VERSION_FIRMWARE_MIN
                [a; b; c; d]);
      rewrite logged_logged; reflexivity.
  - unfold pass, BL600_VERSION_FIRMWARE_MIN.
    rewrite compare_le_unfold by (unfold is_u8; simpl; lia).
    unfold lex_le, at_index. cbn [nth]. bool_to_prop. tauto.
Qed.

End GateAll.

Lemma version_firmware_check_decides_by_version_witness :
  let s := bench_state false false all_ok
             [(10, prefix ++ dotted 1 9 0 3 ++ crlf)] in
  let s1 := snd (@exec_all_AT bench tty at_i_3 EmptyString 32 s) in
  @exec_all_AT bench tty at_i_3 EmptyString 32 s
  = ((true, prefix ++ dotted 1 9 0 3 ++ crlf), s1)
  /\ @version_firmware_check bench tty s
     = (true, logged s1 [required_line; version_line "1 9 0 3"; ready_line]).
Proof.
  intros s s1.
  assert (Hexec : @exec_all_AT bench tty at_i_3 EmptyString 32 s
                  = ((true, prefix ++ dotted 1 9 0 3 ++ crlf), s1))
    by (vm_compute; reflexivity).
  assert (U : is_u32 1 /\ is_u32 9 /\ is_u32 0 /\ is_u32 3)
    by (unfold is_u32, UINT_BITS; simpl; lia).
  destruct U as (a & b & c & d).
  split; [exact Hexec|].
  exact (proj1 (@version_firmware_check_decides_by_version bench tty s s1
                  1 9 0 3 crlf Hexec a b c d
                  (or_intror (ex_intro _ CR (ex_intro _ (String LF EmptyString)
                                                (conj eq_refl eq_refl)))))).
Defined.

(** ** The further properties on the bench *)

Lemma open_serial_open_failure_witness :
  let s := bench_state false false (false, true, true, true) [] in
  let r := @open_serial bench tty s in
  @tty_open bench tty (world s) = (-1, fail_with ENOENT (world s))
  /\ fileno (fst r) = -1
  /\ log (snd r) = [Tty_open tty (-1)]
  /\ errno (world (snd r)) = ENOENT.
Proof.
  intros s r.
  pose proof (@open_serial_open_failure bench tty s
                (fail_with ENOENT (world s)) eq_refl) as H.
  fold r in H. destruct r as [d s'].
  destruct H as (Hd & Hlog & Herrno & _).
  split; [reflexivity|]. split; [exact Hd|].
  split; [exact Hlog | exact Herrno].
Defined.

Lemma open_serial_open_iff_configured_witness :
  let s := bench_state false false all_ok [] in
  let r := @open_serial bench tty s in
  @tty_open bench tty (world s) = (3, world s)
  /\ @tty_set_speed bench 3 B9600 (world s) = (true, world s)
  /\ @tty_use_ctsrts bench 3 (world s) = (true, world s)
  /\ fileno (fst r) <> -1
  /\ log (snd r) = [Tty_open tty 3; Tty_set_speed 3 B9600 true;
                    Tty_use_ctsrts 3 true].
Proof.
  intros s r.
  pose proof (@open_serial_open_iff_configured bench tty s 3 (world s)
                (world s) (world s) true true eq_refl eq_refl eq_refl) as H.
  fold r in H. destruct r as [d s'].
  destruct H as (Hiff & _ & Hopen).
  assert (Hd : fileno d <> -1).
  { apply Hiff. split; [discriminate | split; reflexivity]. }
  split; [reflexivity|]. split; [reflexivity|]. split; [reflexivity|].
  split; [exact Hd | exact (proj2 (Hopen Hd))].
Defined.

Lemma exec_all_AT_releases_device_witness :
  let s := bench_state false false (true, true, false, true) [(2, "OK")] in
  daemon_running s = false
  /\ @tty_open bench tty (world s) = (3, world s)
  /\ exists mid : list event,
       log (snd (@exec_all_AT bench tty ["AT"] EmptyString 32 s))
       = (log s ++ Tty_open tty 3 :: mid ++ [Close 3])%list
       /\ (forall e, In e mid ->
             (forall fd', e <> Close fd')
             /\ (forall n fd', e <> Tty_open n fd')).
Proof.
  intros s. split; [reflexivity|]. split; [reflexivity|].
  exact (@exec_all_AT_releases_device bench tty ["AT"] EmptyString 32 s 3
           (world s) eq_refl eq_refl ltac:(discriminate)).
Defined.

Lemma exec_all_AT_without_device_witness :
  let s := bench_state false false (true, false, true, true) [(2, "OK")] in
  daemon_running s = false
  /\ fileno (fst (@open_serial bench tty s)) = -1
  /\ @exec_all_AT bench tty ["AT"] "junk" 32 s
     = ((false, "junk"), snd (@open_serial bench tty s)).
Proof.
  intros s. split; [reflexivity|]. split; [reflexivity|].
  exact (@exec_all_AT_without_device bench tty ["AT"] "junk" 32 s
           eq_refl eq_refl).
Defined.

Lemma main_never_writes_daemon_running_witness :
  daemon_run (P := bench) "mobile" tty
    (mk_cfg D_entry (bench_state true false all_ok []))
    (mk_cfg (pc bench_loop)
       (snd (@main bench ["mobile"; "stop"] (st bench_loop)))).
Proof.
  apply (proj2 (@main_never_writes_daemon_running bench ["mobile"; "stop"]
                  (st bench_loop)) "mobile" tty _ bench_loop eq_refl).
  apply (daemon_steps_run "mobile" tty 3). vm_compute. reflexivity.
Defined.

Lemma main_unknown_command_prints_usage_witness :
  let s := bench_state false false all_ok [] in
  ~ In (nth 0 ["restart"] EmptyString) commands
  /\ @main bench ["mobile"; "restart"] s
     = (1, logged s (usage_lines "mobile")).
Proof.
  intros s.
  assert (H : ~ In (nth 0 ["restart"] EmptyString) commands).
  { simpl. intros [H|[H|[H|[H|[H|[H|[]]]]]]]; discriminate H. }
  split; [exact H|].
  exact (@main_unknown_command_prints_usage bench "mobile" ["restart"] s
           (or_intror H)).
Defined.

Lemma main_status_reports_flags_witness :
  let s := bench_state true false all_ok [] in
  status_lines "mobile" true false
  = status_lines "mobile" (daemon_should_run s) (daemon_running s)
  /\ true = daemon_should_run s /\ false = daemon_running s.
Proof.
  intros s. split; [reflexivity|].
  exact (proj2 (@main_status_reports_flags bench "mobile" s) true false
           eq_refl).
Defined.

Lemma main_mode_dispatch_witness :
  let s := bench_state false false all_ok [] in
  daemon_running s = false
  /\ @main bench ["mobile"; "mode"; "data"] s
     = (1, logged s (usage_lines "mobile")).
Proof.
  intros s. split; [reflexivity|].
  exact (@main_mode_dispatch bench "mobile" "data" s eq_refl).
Defined.

Lemma main_maintenance_exit_status_witness :
  let s := bench_state false false all_ok [(-1, "ER")] in
  daemon_running s = false
  /\ fst (@main bench ["mobile"; "at"; tty; "AT"] s) = 1.
Proof.
  intros s. split; [reflexivity|].
  rewrite (proj1 (@main_maintenance_exit_status bench "mobile" tty "AT" [] s
                    eq_refl)).
  reflexivity.
Defined.

Lemma daemon_loops_until_stopped_witness :
  daemon_should_run (st bench_loop) = true
  /\ exists s,
       daemon_steps (P := bench) "mobile" tty 5 bench_loop
       = Some (mk_cfg (D_loop (mk_unique_file 3)) s)
       /\ log s = (log (st bench_loop) ++ repeat (Process_one 3) 5)%list.
Proof.
  split; [reflexivity|]. eexists. split.
  - exact (@daemon_loops_until_stopped bench "mobile" tty 5
             (mk_unique_file 3) (st bench_loop) eq_refl).
  - reflexivity.
Defined.

Lemma stop_ends_daemon_at_next_step_witness :
  let s := st bench_loop in
  fileno (mk_unique_file 3) <> -1
  /\ daemon_running s = true
  /\ @main bench ["mobile"; "stop"] s
     = (0, mkState false true (world s) (log s)).
Proof.
  intros s.
  assert (Hd : fileno (mk_unique_file 3) <> -1) by (simpl; discriminate).
  split; [exact Hd|]. split; [reflexivity|].
  exact (proj1 (@stop_ends_daemon_at_next_step bench "mobile" tty "mobile"
                  (mk_unique_file 3) s Hd eq_refl)).
Defined.

Lemma failed_daemon_leaves_request_set_witness :
  let s := bench_state true false (false, true, true, true) [] in
  daemon_should_run s = true
  /\ daemon_running s = false
  /\ exists s2,
       daemon_steps (P := bench) "mobile" tty 2 (mk_cfg D_entry s)
       = Some (mk_cfg (D_returned 1) s2)
       /\ daemon_should_run s2 = true
       /\ daemon_running s2 = false.
Proof.
  intros s. split; [reflexivity|]. split; [reflexivity|].
  destruct (@failed_daemon_leaves_request_set bench "mobile" tty "mobile" s
              eq_refl eq_refl eq_refl)
    as (s2 & Hsteps & Hshould & Hrun & _).
  exists s2. split; [exact Hsteps|]. split; [exact Hshould | exact Hrun].
Defined.

Lemma parse_uint_reads_decimal_witness :
  is_u32 4294967295 /\ parse_uint (dec 4294967295) = (true, 4294967295).
Proof.
  assert (U : is_u32 4294967295) by (unfold is_u32, UINT_BITS; simpl; lia).
  split; [exact U | exact (parse_uint_reads_decimal 4294967295 U)].
Defined.

Lemma parse_uint_accepts_overflow_witness :
  2 ^ 32 <= 99999999999
  /\ fst (parse_uint (dec 99999999999)) = true
  /\ snd (parse_uint (dec 99999999999)) <> 99999999999.
Proof.
  assert (H : 2 ^ 32 <= 99999999999) by (simpl; lia).
  destruct (parse_uint_accepts_overflow 99999999999 H) as (Hok & _ & Hne).
  split; [exact H|]. split; [exact Hok | exact Hne].
Defined.

Lemma version_firmware_parse_writes_read_slots_witness :
  (List.length (tokens sep "1.8") <= 2)%nat
  /\ at_index (snd (version_firmware_parse "1.8" [5; 6; 7; 9])) 2
     = at_index [5; 6; 7; 9] 2.
Proof.
  assert (H : (List.length (tokens sep "1.8") <= 2)%nat)
    by (vm_compute; lia).
  split; [exact H|].
  exact (proj1 (proj2 (version_firmware_parse_writes_read_slots "1.8" 5 6 7 9))
           2%nat H).
Defined.
